(** * edgerunner-v2 backend: connection health monitor and Flex Query service

    A shallow embedding of
      - [src/backend/src/services/connection_health.py]
      - [src/backend/src/services/flex_query_service.py]
      - [src/backend/src/services/broker_service.py], as far as the
        monitor calls it,
    the properties of them that the specification states, and further
    properties that the code has.

    Conventions of the embedding.
      - Python [float] is the kernel's binary64 [float]; a Python [int] is a
        [Z] and is converted with [float_of_Z] where the source mixes both.
      - A Python [dict] keyed by strings is a [gmap string _]; the literal
        [details] dictionaries, which are built key by key and then
        iterated with [.items()], are association lists in insertion order.
      - [try]/[except] is the sum type [Exc]; an exception is the pair of
        its class and its message, and [str e] is the message.
      - [datetime.now()] reads an explicit clock; [logger] calls do not
        change any state the modelled functions read and are left out,
        except where a log record is the only trace of a handled error. *)

From Corelib Require Import PrimFloat SpecFloat FloatOps.
From Stdlib Require Import ZArith Ascii String List Lia Sorted OrderedTypeEx.
From stdpp Require Import base option list strings gmap pretty.

Local Open Scope string_scope.
Local Open Scope Z_scope.

(* ===================================================================== *)
(** * Python values *)
(* ===================================================================== *)

Module Py.

(** Exception classes that the two services raise or catch.  All of them
    derive from [Exception], which is what every [except Exception]
    clause of the source catches. *)
Inductive ExcClass :=
| Exception | ValueError | TypeError | ParseError | ClientError.

Record PyExc := mkExc { exc_class : ExcClass; exc_msg : string }.

Definition str (e : PyExc) : string := exc_msg e.

(** Result of a call that may raise. *)
Inductive Exc (A : Type) : Type :=
| Ok (a : A)
| Raise (e : PyExc).
Arguments Ok {A} a.
Arguments Raise {A} e.

(** Sequencing: the first exception raised leaves the block. *)
#[export] Instance Exc_ret : MRet Exc := fun A a => Ok a.
#[export] Instance Exc_bind : MBind Exc := fun A B k m =>
  match m with
  | Ok a => k a
  | Raise e => Raise e
  end.

(** [float(n)] for an [int] [n]: round to nearest even. *)
Definition float_of_Z (n : Z) : float :=
  SF2Prim (binary_normalize prec emax n 0 false).

(** ** Strings *)

Definition chars (s : string) : list ascii := list_ascii_of_string s.

Definition in_range (lo hi : N) (c : ascii) : bool :=
  let n := N_of_ascii c in (lo <=? n)%N && (n <=? hi)%N.

Definition is_digit : ascii -> bool := in_range 48 57.
Definition is_upper : ascii -> bool := in_range 65 90.

(** Characters that [str.strip()] removes (the ASCII ones). *)
Definition is_space (c : ascii) : bool :=
  in_range 9 13 c || in_range 28 32 c.

Definition lower_char (c : ascii) : ascii :=
  if is_upper c then ascii_of_N (N_of_ascii c + 32) else c.

(** [s.lower()] on ASCII text. *)
Fixpoint lower (s : string) : string :=
  match s with
  | EmptyString => EmptyString
  | String c s' => String (lower_char c) (lower s')
  end.

(** [needle in hay] for strings. *)
Fixpoint contains (needle hay : string) : bool :=
  String.prefix needle hay ||
  match hay with
  | EmptyString => false
  | String _ hay' => contains needle hay'
  end.

(** [any(phrase in text for phrase in phrases)] *)
Definition any_in (phrases : list string) (text : string) : bool :=
  existsb (fun phrase => contains phrase text) phrases.

(** ** [float(s)] for a string

    The grammar of the Python language reference, on ASCII text:
<<
      floatvalue  ::= [sign] (floatnumber | "inf" | "infinity" | "nan")
      floatnumber ::= number [("e" | "E") [sign] digitpart]
      number      ::= [digitpart] "." digitpart | digitpart ["."]
      digitpart   ::= digit (["_"] digit)*
>>
    after leading and trailing whitespace has been removed; the words are
    matched without regard to case.  The value is the decimal number
    rounded to the nearest binary64 number, ties to even.  Strings are
    byte strings here: the decimal digits and white space that Python
    accepts outside ASCII are not modelled. *)

Fixpoint lstrip (l : list ascii) : list ascii :=
  match l with
  | c :: l' => if is_space c then lstrip l' else l
  | [] => []
  end.

Definition strip (l : list ascii) : list ascii :=
  rev (lstrip (rev (lstrip l))).

(** [(["_"] digit)*]: the digits read and the text left. *)
Fixpoint more_digits (l : list ascii) : list ascii * list ascii :=
  match l with
  | c :: l' =>
      if is_digit c then
        let '(ds, r) := more_digits l' in (c :: ds, r)
      else if Ascii.eqb c "_" then
        match l' with
        | d :: l'' =>
            if is_digit d then
              let '(ds, r) := more_digits l'' in (d :: ds, r)
            else ([], l)
        | [] => ([], l)
        end
      else ([], l)
  | [] => ([], [])
  end.

Definition digitpart (l : list ascii) : option (list ascii * list ascii) :=
  match l with
  | c :: l' =>
      if is_digit c then let '(ds, r) := more_digits l' in Some (c :: ds, r)
      else None
  | [] => None
  end.

Definition digits_value (ds : list ascii) : Z :=
  fold_left (fun acc c => 10 * acc + (Z.of_N (N_of_ascii c) - 48)) ds 0.

Definition take_sign (l : list ascii) : bool * list ascii :=
  match l with
  | c :: l' =>
      if Ascii.eqb c "-" then (true, l')
      else if Ascii.eqb c "+" then (false, l')
      else (false, l)
  | [] => (false, [])
  end.

(** [number]: integer digits, fraction digits and the text left. *)
Definition number (l : list ascii)
  : option (list ascii * list ascii * list ascii) :=
  match digitpart l with
  | Some (ip, r) =>
      match r with
      | c :: r' =>
          if Ascii.eqb c "." then
            match digitpart r' with
            | Some (fp, r'') => Some (ip, fp, r'')
            | None => Some (ip, [], r')
            end
          else Some (ip, [], r)
      | [] => Some (ip, [], [])
      end
  | None =>
      match l with
      | c :: r' =>
          if Ascii.eqb c "." then
            match digitpart r' with
            | Some (fp, r'') => Some ([], fp, r'')
            | None => None
            end
          else None
      | [] => None
      end
  end.

(** The exponent, when the text left is exactly an exponent or empty. *)
Definition exponent (l : list ascii) : option Z :=
  match l with
  | [] => Some 0
  | c :: l' =>
      if Ascii.eqb (lower_char c) "e" then
        let '(neg, l'') := take_sign l' in
        match digitpart l'' with
        | Some (ds, []) =>
            Some (if neg then - digits_value ds else digits_value ds)
        | _ => None
        end
      else None
  end.

(** [m * 10^e] for [m > 0], rounded to nearest even. *)
Definition round_decimal (m e : Z) : float :=
  if 0 <=? e
  then SF2Prim (binary_normalize prec emax (m * 10 ^ e) 0 false)
  else SF2Prim (SFdiv prec emax (S754_finite false (Z.to_pos m) 0)
                                (S754_finite false (Z.to_pos (10 ^ (- e))) 0)).

Definition signed (neg : bool) (f : float) : float :=
  if neg then PrimFloat.opp f else f.

Definition float_of_chars (l : list ascii) : option float :=
  let '(neg, body) := take_sign (strip l) in
  let word := string_of_list_ascii (map lower_char body) in
  if String.eqb word "inf" || String.eqb word "infinity"
  then Some (signed neg infinity)
  else if String.eqb word "nan" then Some nan
  else
    match number body with
    | Some (ip, fp, r) =>
        match exponent r with
        | Some e =>
            let m := digits_value (ip ++ fp)%list in
            if m =? 0 then Some (signed neg 0%float)
            else Some (signed neg (round_decimal m (e - Z.of_nat (length fp))))
        | None => None
        end
    | None => None
    end.

(** [repr(s)] for text without quotes, backslashes or control characters. *)
Definition repr (s : string) : string := "'" ++ s ++ "'".

(** [float(s)] *)
Definition float_of_str (s : string) : Exc float :=
  match float_of_chars (chars s) with
  | Some f => Ok f
  | None =>
      Raise (mkExc ValueError ("could not convert string to float: " ++ repr s))
  end.

(** [a > b], [a >= b] and [a < b] on floats, written as the source
    writes them. *)
Definition float_gt (a b : float) : bool := PrimFloat.ltb b a.
Definition float_ge (a b : float) : bool := PrimFloat.leb b a.
Definition float_lt (a b : float) : bool := PrimFloat.ltb a b.

End Py.

(* ===================================================================== *)
(** * connection_health.py *)
(* ===================================================================== *)

Module ConnectionHealthMonitor.
Import Py.

(** [class ConnectionHealth(Enum)] *)
Inductive ConnectionHealth := HEALTHY | DEGRADED | UNHEALTHY | UNKNOWN.

#[export] Instance ConnectionHealth_eq_dec : EqDecision ConnectionHealth.
Proof. solve_decision. Defined.

(** ** The broker service, as the monitor sees it

    [models.ConnectionStatus] and the fields of [models.BrokerConnection],
    [AccountSummary] and [MarketData] that the monitor reads. *)
Inductive ConnectionStatus := CONNECTED | DISCONNECTED | CONNECTING | ERROR.

Record BrokerConnection := mkConnection {
  status : ConnectionStatus;
  error : option string
}.

Record AccountSummary := mkAccount { summary_account_id : string }.
Record MarketData := mkMarket { bid : float; ask : float }.

(** A call together with the time the monitor measures around it,
    [(datetime.now() - start).total_seconds() * 1000]. *)
Record Timed (A : Type) := mkTimed { took_ms : float; outcome : Exc A }.
Arguments mkTimed {A} took_ms outcome.
Arguments took_ms {A} t.
Arguments outcome {A} t.

(** What the [BrokerService] answers while one check runs.  The adapters
    behind it are outside this development; [get_positions] is reduced
    to the length of the list it returns. *)
Record BrokerService := mkService {
  get_supported_brokers : list string;
  get_broker_status : string -> Exc BrokerConnection;
  get_account_summary : string -> Timed AccountSummary;
  get_market_data : string -> string -> Timed MarketData;
  get_positions : string -> Timed Z
}.

(** One entry of the dictionary that [_detailed_health_check] returns:
    the inner dictionary of a sub-check.  A key that the source does not
    set is [None]; [check_data.get("success")] is the field [success]. *)
Record CheckData := mkCheck {
  success : bool;
  duration_ms : option float;
  data_quality : option string;
  check_error : option string;
  account_id : option string;
  symbol : option string;
  position_count : option Z
}.

(** The warning test inside the loop of [_determine_health_status]:
<<
    if check_name == "market_data" and check_data.get("data_quality") == "poor":
        warning_conditions += 1
    elif check_name == "account_access" and check_data.get("duration_ms", 0) > 5000:
        warning_conditions += 1
>> *)
Definition warns (check_name : string) (check_data : CheckData) : bool :=
  if bool_decide (check_name = "market_data")
     && bool_decide (data_quality check_data = Some "poor") then true
  else if bool_decide (check_name = "account_access")
          && float_gt (default 0%float (duration_ms check_data)) 5000%float then true
  else false.

(** The three counters after the [for] loop over [health_details.items()]:
    (successful_checks, total_checks, warning_conditions). *)
Fixpoint count_checks (items : list (string * CheckData))
         (acc : Z * Z * Z) : Z * Z * Z :=
  match items with
  | [] => acc
  | (check_name, check_data) :: rest =>
      let '(successful_checks, total_checks, warning_conditions) := acc in
      let total_checks := total_checks + 1 in
      if success check_data then
        let successful_checks := successful_checks + 1 in
        if warns check_name check_data
        then count_checks rest (successful_checks, total_checks, warning_conditions + 1)
        else count_checks rest (successful_checks, total_checks, warning_conditions)
      else count_checks rest (successful_checks, total_checks, warning_conditions)
  end.

(** The literal [0.7] of the source, as the binary64 number it denotes. *)
Definition seventy_percent : float := 0x1.6666666666666p-1%float.

(** [_determine_health_status].  The counters are integers; the
    comparison with the float [total_checks * 0.7] is by value, and
    counts of this size convert to floats exactly. *)
Definition _determine_health_status (health_details : list (string * CheckData))
  : ConnectionHealth :=
  let '(successful_checks, total_checks, warning_conditions) :=
    count_checks health_details (0, 0, 0) in
  if bool_decide (successful_checks = total_checks)
     && bool_decide (warning_conditions = 0) then HEALTHY
  else if float_ge (float_of_Z successful_checks)
             (float_of_Z total_checks * seventy_percent)%float then DEGRADED
  else UNHEALTHY.

(** The inner dictionary of a failed sub-check:
    [{"success": False, "error": str(e)}]. *)
Definition failed (e : PyExc) : CheckData :=
  mkCheck false None None (Some (str e)) None None None.

(** [_detailed_health_check] *)
Definition _detailed_health_check (svc : BrokerService) (broker_id : string)
  : list (string * CheckData) :=
  let account_access :=
    let call := get_account_summary svc broker_id in
    match outcome call with
    | Ok account_summary =>
        mkCheck true (Some (took_ms call)) None None
                (Some (summary_account_id account_summary)) None None
    | Raise e => failed e
    end in
  let market_data_check :=
    let test_symbol := if bool_decide (broker_id = "ibkr") then "AAPL" else "EURUSD" in
    let call := get_market_data svc broker_id test_symbol in
    match outcome call with
    | Ok market_data =>
        mkCheck true (Some (took_ms call))
                (Some (if float_gt (bid market_data) 0%float && float_gt (ask market_data) 0%float
                       then "good" else "poor"))
                None None (Some test_symbol) None
    | Raise e => failed e
    end in
  let positions_access :=
    let call := get_positions svc broker_id in
    match outcome call with
    | Ok positions =>
        mkCheck true (Some (took_ms call)) None None None None (Some positions)
    | Raise e => failed e
    end in
  [("account_access", account_access); ("market_data", market_data_check);
   ("positions_access", positions_access)].

(** ** The monitor *)

(** A value of the [details] dictionary of a result. *)
Inductive DetailValue :=
| DCheck (check_data : CheckData)
| DBool (b : bool)
| DInt (n : Z).

(** [class HealthCheckResult]; [details or {}] is the empty list. *)
Record HealthCheckResult := mkResult {
  broker_id : string;
  health : ConnectionHealth;
  last_check : Z;
  result_error : option string;
  details : list (string * DetailValue)
}.

(** A subscriber: it may raise. *)
Definition Callback : Type := string -> ConnectionHealth -> Exc unit.

(** One call of a subscriber: its position in [self.callbacks] and the
    two arguments. *)
Definition Invocation : Type := nat * string * ConnectionHealth.

(** [class ConnectionHealthMonitor].  [invoked] and [error_log] are not
    attributes of the class: they record, in order, the subscriber calls
    made and the [logger.error] records written for subscribers that
    raised. *)
Record Monitor := mkMonitor {
  health_checks : gmap string HealthCheckResult;
  recovery_attempts : gmap string Z;
  max_recovery_attempts : Z;
  callbacks : list Callback;
  invoked : list Invocation;
  error_log : list string
}.

(** [ConnectionHealthMonitor(broker_service)] *)
Definition __init__ : Monitor := mkMonitor ∅ ∅ 3 [] [] [].

Definition set_health_checks (h : gmap string HealthCheckResult) (m : Monitor) :=
  mkMonitor h (recovery_attempts m) (max_recovery_attempts m) (callbacks m)
            (invoked m) (error_log m).

Definition set_recovery_attempts (r : gmap string Z) (m : Monitor) :=
  mkMonitor (health_checks m) r (max_recovery_attempts m) (callbacks m)
            (invoked m) (error_log m).

(** [add_health_callback] *)
Definition add_health_callback (callback : Callback) (m : Monitor) :=
  mkMonitor (health_checks m) (recovery_attempts m) (max_recovery_attempts m)
            (callbacks m ++ [callback])%list (invoked m) (error_log m).

(** [_attempt_recovery]: the source logs that recovery is not implemented
    and returns [False]. *)
Definition _attempt_recovery (broker_id : string) : bool := false.

(** [connection.error or "Connection error"] *)
Definition error_or (error : option string) (fallback : string) : string :=
  match error with
  | Some msg => if bool_decide (msg = "") then fallback else msg
  | None => fallback
  end.

(** [check_broker_health], with the recovery procedure as a parameter. *)
Definition check_broker_health_with (recover : string -> bool)
    (svc : BrokerService) (start_time : Z) (broker_id : string) (m : Monitor)
  : Monitor * HealthCheckResult :=
  match get_broker_status svc broker_id with
  | Ok connection =>
      match status connection with
      | CONNECTED =>
          let health_details := _detailed_health_check svc broker_id in
          let health_status := _determine_health_status health_details in
          let m :=
            if bool_decide (health_status = HEALTHY)
            then set_recovery_attempts (delete broker_id (recovery_attempts m)) m
            else m in
          (m, mkResult broker_id health_status start_time None
                       (map (fun kv => (kv.1, DCheck kv.2)) health_details))
      | DISCONNECTED =>
          let recovery_count := default 0 (recovery_attempts m !! broker_id) in
          let unhealthy (m : Monitor) :=
            (m, mkResult broker_id UNHEALTHY start_time (Some "Broker disconnected")
                  [("recovery_attempts",
                    DInt (default 0 (recovery_attempts m !! broker_id)))]) in
          if recovery_count <? max_recovery_attempts m then
            if recover broker_id then
              (set_recovery_attempts (delete broker_id (recovery_attempts m)) m,
               mkResult broker_id HEALTHY start_time None
                        [("recovery_successful", DBool true)])
            else
              unhealthy (set_recovery_attempts
                           (<[broker_id := recovery_count + 1]> (recovery_attempts m)) m)
          else unhealthy m
      | _ =>
          (m, mkResult broker_id UNHEALTHY start_time
                       (Some (error_or (error connection) "Connection error")) [])
      end
  | Raise e =>
      (m, mkResult broker_id UNKNOWN start_time (Some (str e)) [])
  end.


(** The loop [for callback in self.callbacks] of [check_all_brokers_health]:
    every subscriber is called; one that raises leaves a log record. *)
Fixpoint notify (cbs : list Callback) (position : nat)
    (broker_id : string) (new_health : ConnectionHealth) (m : Monitor) : Monitor :=
  match cbs with
  | [] => m
  | callback :: rest =>
      let log :=
        match callback broker_id new_health with
        | Ok _ => error_log m
        | Raise e =>
            (error_log m ++ [("Health callback error: " ++ str e)%string])%list
        end in
      notify rest (S position) broker_id new_health
             (mkMonitor (health_checks m) (recovery_attempts m)
                        (max_recovery_attempts m) (callbacks m)
                        (invoked m ++ [(position, broker_id, new_health)])%list log)
  end.

(** [old_health is None or old_health.health != result.health] *)
Definition health_changed (old_health : option HealthCheckResult)
    (result : HealthCheckResult) : bool :=
  match old_health with
  | None => true
  | Some old => negb (bool_decide (health old = health result))
  end.

(** The body of the loop of [check_all_brokers_health] for one broker. *)
Definition check_one (recover : string -> bool) (svc : BrokerService)
    (now : string -> Z) (broker_id : string)
    (acc : Monitor * gmap string HealthCheckResult)
  : Monitor * gmap string HealthCheckResult :=
  let '(m, results) := acc in
  let '(m, result) := check_broker_health_with recover svc (now broker_id) broker_id m in
  let results := <[broker_id := result]> results in
  let old_health := health_checks m !! broker_id in
  let m :=
    if health_changed old_health result
    then notify (callbacks m) 0 broker_id (health result) m
    else m in
  (set_health_checks (<[broker_id := result]> (health_checks m)) m, results).

(** [check_all_brokers_health]; [now b] is the clock when the check of
    broker [b] starts. *)
Definition check_all_brokers_health_with (recover : string -> bool)
    (svc : BrokerService) (now : string -> Z) (m : Monitor)
  : Monitor * gmap string HealthCheckResult :=
  fold_left (fun acc broker_id => check_one recover svc now broker_id acc)
            (get_supported_brokers svc) (m, ∅).

Definition check_all_brokers_health := check_all_brokers_health_with _attempt_recovery.

(** [force_health_check]; [if broker_id:] holds for a non-empty string. *)
Definition force_health_check_with (recover : string -> bool)
    (svc : BrokerService) (now : string -> Z) (broker_id : option string)
    (m : Monitor) : Monitor * gmap string HealthCheckResult :=
  match broker_id with
  | Some id =>
      if bool_decide (id = "") then check_all_brokers_health_with recover svc now m
      else
        let '(m, result) := check_broker_health_with recover svc (now id) id m in
        (set_health_checks (<[id := result]> (health_checks m)) m, {[id := result]})
  | None => check_all_brokers_health_with recover svc now m
  end.

Definition force_health_check := force_health_check_with _attempt_recovery.

(** [get_broker_health] *)
Definition get_broker_health (broker_id : string) (m : Monitor)
  : option HealthCheckResult :=
  health_checks m !! broker_id.

(** ** The summary *)

(** One entry of the [brokers] dictionary of the summary;
    [last_check.isoformat()] is kept as the clock value it renders. *)
Record BrokerSummary := mkBrokerSummary {
  summary_health : ConnectionHealth;
  summary_last_check : Z;
  summary_error : option string
}.

(** The dictionary that [get_health_summary] returns.  The keys
    ["healthy_brokers"] and ["total_brokers"] are absent from the
    dictionary returned for a monitor without results. *)
Record HealthSummary := mkSummary {
  overall : ConnectionHealth;
  brokers : gmap string BrokerSummary;
  summary_last : option Z;
  healthy_brokers : option Z;
  total_brokers : option Z;
  recommendations : list string
}.

(** The three marks of the recommendation lines, in UTF-8: a cross
    mark, a warning sign with its variation selector, a check mark. *)
Definition cross_mark : string :=
  string_of_list_ascii ["226"; "157"; "140"]%char.
Definition warning_sign : string :=
  string_of_list_ascii ["226"; "154"; "160"; "239"; "184"; "143"]%char.
Definition check_mark : string :=
  string_of_list_ascii ["226"; "156"; "133"]%char.

(** The lines that the loop over [self.health_checks.items()] appends.
    [shown broker_id] is the text that the f-string puts for the key:
    the key itself for a [str], and for a member of [BrokerType], which
    the keys that come from [get_supported_brokers] are, what the
    Python version at hand makes of [format] for such a member. *)
Fixpoint broker_lines (shown : string -> string)
    (items : list (string * HealthCheckResult)) : list string :=
  match items with
  | [] => []
  | (broker_id, result) :: rest =>
      match health result with
      | UNHEALTHY =>
          (cross_mark ++ " " ++ shown broker_id ++ ": "
           ++ error_or (result_error result) "Connection failed")%string
          :: broker_lines shown rest
      | DEGRADED =>
          (warning_sign ++ " " ++ shown broker_id
           ++ ": Performance issues detected")%string
          :: broker_lines shown rest
      | _ => broker_lines shown rest
      end
  end.

(** [sum(1 for result in ... if result.health == ConnectionHealth.HEALTHY)] *)
Definition healthy_count (items : list (string * HealthCheckResult)) : Z :=
  Z.of_nat (length (List.filter (fun kv => bool_decide (health kv.2 = HEALTHY)) items)).

(** The literal [0.5] of the source. *)
Definition one_half : float := 0x1p-1%float.

(** [get_health_summary], for [self.health_checks.items()] in the order
    in which the dictionary yields them.  The counters are integers;
    the comparison with the float [total_count * 0.5] is by value. *)
Definition summary_of (shown : string -> string)
    (items : list (string * HealthCheckResult)) : HealthSummary :=
  match items with
  | [] =>
      mkSummary UNKNOWN ∅ None None None
                ["Run health check to assess broker connections"]
  | first :: rest =>
      let healthy_count := healthy_count items in
      let total_count := Z.of_nat (length items) in
      let overall :=
        if bool_decide (healthy_count = total_count) then HEALTHY
        else if float_ge (float_of_Z healthy_count)
                         (float_of_Z total_count * one_half)%float then DEGRADED
        else UNHEALTHY in
      let recommendations :=
        (broker_lines shown items
         ++ if bool_decide (overall = HEALTHY)
            then [(check_mark ++ " All broker connections are healthy")%string]
            else [])%list in
      mkSummary overall
                (list_to_map
                   (map (fun kv => (kv.1, mkBrokerSummary (health kv.2) (last_check kv.2)
                                                         (result_error kv.2)))
                        items))
                (Some (fold_left Z.max (map (fun kv => last_check kv.2) rest)
                                 (last_check first.2)))
                (Some healthy_count) (Some total_count) recommendations
  end.


End ConnectionHealthMonitor.

(* ===================================================================== *)
(** * broker_service.py *)
(* ===================================================================== *)

Module broker_service.
Import Py ConnectionHealthMonitor.

(** What the service calls of a [BrokerAdapter]; the adapters
    themselves are outside this development. *)
Record BrokerAdapter := mkAdapter {
  get_connection_status : Exc BrokerConnection;
  adapter_account_summary : Timed AccountSummary;
  adapter_market_data : string -> Timed MarketData;
  adapter_positions : Timed Z
}.

(** [self.adapters]: a dictionary in insertion order. *)
Definition Adapters : Type := list (string * BrokerAdapter).


(** [self.adapters.get(key)] *)
Fixpoint getitem (key : string) (adapters : Adapters) : option BrokerAdapter :=
  match adapters with
  | [] => None
  | (k, a) :: rest => if bool_decide (k = key) then Some a else getitem key rest
  end.


(** [get_adapter] *)
Definition get_adapter (adapters : Adapters) (broker : string) : Exc BrokerAdapter :=
  match getitem broker adapters with
  | Some adapter => Ok adapter
  | None =>
      Raise (mkExc ValueError
               ("Broker '" ++ broker ++ "' not supported or not initialized"))
  end.

(** [get_broker_status]: every exception becomes a connection with the
    status ["error"]. *)
Definition get_broker_status (adapters : Adapters) (broker : string)
  : BrokerConnection :=
  match adapter ← get_adapter adapters broker; get_connection_status adapter with
  | Ok connection => connection
  | Raise e => mkConnection ERROR (Some (str e))
  end.

(** [get_account_summary], [get_market_data], [get_positions]: the
    exception of [get_adapter] leaves the method.  The duration of a
    call that raises is not read by the monitor. *)
Definition get_account_summary (adapters : Adapters) (broker : string)
  : Timed AccountSummary :=
  match get_adapter adapters broker with
  | Ok adapter => adapter_account_summary adapter
  | Raise e => mkTimed 0%float (Raise e)
  end.

Definition get_market_data (adapters : Adapters) (broker symbol : string)
  : Timed MarketData :=
  match get_adapter adapters broker with
  | Ok adapter => adapter_market_data adapter symbol
  | Raise e => mkTimed 0%float (Raise e)
  end.

Definition get_positions (adapters : Adapters) (broker : string) : Timed Z :=
  match get_adapter adapters broker with
  | Ok adapter => adapter_positions adapter
  | Raise e => mkTimed 0%float (Raise e)
  end.

(** [get_supported_brokers]: [list(self.adapters.keys())] *)
Definition get_supported_brokers (adapters : Adapters) : list string :=
  map fst adapters.


End broker_service.


(* ===================================================================== *)
(** * xml.etree.ElementTree *)
(* ===================================================================== *)

Module ET.

(** An element: tag, attribute dictionary, text and children. *)
#[warnings="-register-all"]
Inductive Element :=
| Elem (tag : string) (attrib : gmap string string) (text : option string)
       (children : list Element).

Definition tag (e : Element) : string :=
  match e with Elem t _ _ _ => t end.
Definition attrib (e : Element) : gmap string string :=
  match e with Elem _ a _ _ => a end.
Definition text (e : Element) : option string :=
  match e with Elem _ _ x _ => x end.
Definition children (e : Element) : list Element :=
  match e with Elem _ _ _ cs => cs end.

(** [element.iter()]: the element and all its descendants, in document
    order. *)
Fixpoint iter (e : Element) : list Element :=
  match e with
  | Elem _ _ _ cs => e :: flat_map iter cs
  end.

(** [root.findall(".//name")]: the descendants of [root] with that tag, in
    document order; the root itself is not among them. *)
Definition findall (name : string) (root : Element) : list Element :=
  List.filter (fun e => bool_decide (tag e = name)) (flat_map iter (children root)).

(** [root.find(".//name")] *)
Definition find (name : string) (root : Element) : option Element :=
  head (findall name root).

End ET.

(* ===================================================================== *)
(** * flex_query_service.py: parser and metrics *)
(* ===================================================================== *)

Module FlexQueryService.
Import Py ET.

(** A value of a record dictionary: the parsers store the attribute text
    or the number obtained from it. *)
Inductive Value :=
| VStr (s : string)
| VFloat (f : float).

(** [float(v)] *)
Definition float_ (v : Value) : Exc float :=
  match v with
  | VStr s => float_of_str s
  | VFloat f => Ok f
  end.

Definition is_float (v : Value) : bool :=
  match v with VFloat _ => true | VStr _ => false end.

(** [models.FlexQueryData] *)
Record FlexQueryData := mkData {
  data_query_id : string;
  data_type : string;
  records : list (gmap string Value);
  total_records : Z;
  generated_at : Z
}.

(** [if old in d: d[new] = d.pop(old)] *)
Definition rename (old new : string) (d : gmap string Value) : gmap string Value :=
  match d !! old with
  | Some v => <[new := v]> (delete old d)
  | None => d
  end.

(** [if key in d: d[key] = float(d[key])] *)
Definition coerce (key : string) (d : gmap string Value) : Exc (gmap string Value) :=
  match d !! key with
  | Some v => f ← float_ v; mret (<[key := VFloat f]> d)
  | None => mret d
  end.

(** [if old in d: d[new] = float(d.pop(old))] *)
Definition coerce_rename (old new : string) (d : gmap string Value)
  : Exc (gmap string Value) :=
  match d !! old with
  | Some v => f ← float_ v; mret (<[new := VFloat f]> (delete old d))
  | None => mret d
  end.

(** A [for] loop that appends one record per element; an exception in
    the body leaves the loop and the function. *)
Fixpoint for_each {A B : Type} (body : A -> Exc B) (l : list A) : Exc (list B) :=
  match l with
  | [] => mret []
  | x :: rest => y ← body x; ys ← for_each body rest; mret (y :: ys)
  end.

(** [dict(element.attrib)] *)
Definition dict_of (e : Element) : gmap string Value := VStr <$> attrib e.

(** The body of the loop of [_parse_trade_records]. *)
Definition parse_trade (trade : Element) : Exc (gmap string Value) :=
  let trade_data := dict_of trade in
  let trade_data := rename "tradeDate" "trade_date" trade_data in
  let trade_data := rename "settleDate" "settle_date" trade_data in
  trade_data ← coerce "quantity" trade_data;
  trade_data ← coerce "price" trade_data;
  trade_data ← coerce "proceeds" trade_data;
  trade_data ← coerce "commission" trade_data;
  coerce_rename "realizedPL" "realized_pnl" trade_data.

(** [_parse_trade_records] *)
Definition _parse_trade_records (root : Element) : Exc (list (gmap string Value)) :=
  for_each parse_trade (findall "Trade" root).

Definition parse_cash_transaction (transaction : Element) : Exc (gmap string Value) :=
  let tx_data := dict_of transaction in
  tx_data ← coerce "amount" tx_data;
  mret (rename "dateTime" "date" tx_data).

(** [_parse_cash_transactions] *)
Definition _parse_cash_transactions (root : Element) : Exc (list (gmap string Value)) :=
  for_each parse_cash_transaction (findall "CashTransaction" root).

Definition parse_position (position : Element) : Exc (gmap string Value) :=
  let pos_data := dict_of position in
  pos_data ← coerce "position" pos_data;
  pos_data ← coerce_rename "markPrice" "mark_price" pos_data;
  pos_data ← coerce_rename "positionValue" "position_value" pos_data;
  coerce_rename "unrealizedPL" "unrealized_pnl" pos_data.

(** [_parse_position_records] *)
Definition _parse_position_records (root : Element) : Exc (list (gmap string Value)) :=
  for_each parse_position (findall "OpenPosition" root).

Definition parse_dividend (dividend : Element) : Exc (gmap string Value) :=
  let div_data := dict_of dividend in
  div_data ← coerce_rename "totalCash" "amount" div_data;
  mret (match div_data !! "date" with
        | Some v => <["ex_date" := v]> div_data
        | None => div_data
        end).

(** [_parse_dividend_records] *)
Definition _parse_dividend_records (root : Element) : Exc (list (gmap string Value)) :=
  for_each parse_dividend (findall "ChangeInDividendAccrual" root).

(** The generic branch of [_parse_flex_query_xml]: every element with
    attributes that is not part of the envelope. *)
Definition envelope : list string :=
  ["FlexQueryResponse"; "FlexStatements"; "FlexStatement"].

Definition generic_records (root : Element) : list (gmap string Value) :=
  map dict_of
      (List.filter (fun element =>
                 negb (bool_decide (attrib element = ∅))
                 && negb (bool_decide (tag element ∈ envelope)))
              (iter root)).

(** [_parse_flex_query_xml]; [now] is the clock read for [generated_at]. *)
Definition _parse_flex_query_xml (root : Element) (reference_code : string)
    (now : Z) : Exc FlexQueryData :=
  '(data_type, records) ←
    match find "Trade" root with
    | Some _ => r ← _parse_trade_records root; mret ("trades", r)
    | None =>
    match find "CashTransaction" root with
    | Some _ => r ← _parse_cash_transactions root; mret ("cash_transactions", r)
    | None =>
    match find "OpenPosition" root with
    | Some _ => r ← _parse_position_records root; mret ("positions", r)
    | None =>
    match find "ChangeInDividendAccrual" root with
    | Some _ => r ← _parse_dividend_records root; mret ("dividends", r)
    | None => mret ("generic", generic_records root)
    end end end end;
  mret (mkData reference_code data_type records (Z.of_nat (length records)) now).

(** ** Performance metrics *)

(** [models.PerformanceMetrics]; the model coerces every number given for
    a [float] field to [float]. *)
Record PerformanceMetrics := mkMetrics {
  total_realized_pnl : float;
  total_unrealized_pnl : float;
  total_commissions : float;
  total_fees : float;
  net_pnl : float;
  win_rate : float;
  profit_factor : float;
  max_drawdown : float;
  total_trades : Z;
  winning_trades : Z;
  losing_trades : Z;
  avg_winning_trade : float;
  avg_losing_trade : float;
  largest_win : float;
  largest_loss : float;
  period_start : Z;
  period_end : Z
}.

(** [float(trade.get(key, 0))] *)
Definition get_float (key : string) (trade : gmap string Value) : Exc float :=
  match trade !! key with
  | Some v => float_ v
  | None => Ok 0%float
  end.

(** [sum(float(t.get(key, 0)) for t in trades)], continued from [acc]:
    additions from left to right, starting from zero.  (CPython from
    3.12 on compensates the rounding errors of such a sum; the two agree
    whenever the additions are exact.) *)
Fixpoint sum_from (acc : float) (key : string) (trades : list (gmap string Value))
  : Exc float :=
  match trades with
  | [] => Ok acc
  | t :: rest => x ← get_float key t; sum_from (acc + x)%float key rest
  end.

Definition sum_of : string -> list (gmap string Value) -> Exc float :=
  sum_from 0%float.

(** [[t for t in trades if test(float(t.get('realized_pnl', 0)))]] *)
Fixpoint select (test : float -> bool) (trades : list (gmap string Value))
  : Exc (list (gmap string Value)) :=
  match trades with
  | [] => Ok []
  | t :: rest =>
      x ← get_float "realized_pnl" t;
      chosen ← select test rest;
      mret (if test x then t :: chosen else chosen)
  end.

(** [max(..., default=0)] and [min(..., default=0)] over the realized
    P&L of [trades]: the first item, replaced by each later item that is
    [better] than the one held. *)
Fixpoint extreme_from (better : float -> float -> bool) (held : float)
    (trades : list (gmap string Value)) : Exc float :=
  match trades with
  | [] => Ok held
  | t :: rest =>
      x ← get_float "realized_pnl" t;
      extreme_from better (if better x held then x else held) rest
  end.

Definition extreme (better : float -> float -> bool)
    (trades : list (gmap string Value)) : Exc float :=
  match trades with
  | [] => Ok 0%float
  | t :: rest => x ← get_float "realized_pnl" t; extreme_from better x rest
  end.

(** [a < b] on sort keys: defined for two strings or two numbers. *)
Definition key_lt (a b : Value) : Exc bool :=
  match a, b with
  | VStr s, VStr t => Ok (String.ltb s t)
  | VFloat x, VFloat y => Ok (float_lt x y)
  | VStr _, VFloat _ =>
      Raise (mkExc TypeError "'<' not supported between instances of 'str' and 'float'")
  | VFloat _, VStr _ =>
      Raise (mkExc TypeError "'<' not supported between instances of 'float' and 'str'")
  end.

(** [x.get('trade_date', '')] *)
Definition sort_key (trade : gmap string Value) : Value :=
  default (VStr "") (trade !! "trade_date").

(** [sorted(trades, key=...)]: a stable sort; each trade is placed
    before the first trade already placed whose key is greater. *)
Fixpoint place (t : gmap string Value) (placed : list (gmap string Value))
  : Exc (list (gmap string Value)) :=
  match placed with
  | [] => Ok [t]
  | u :: rest =>
      b ← key_lt (sort_key t) (sort_key u);
      if (b : bool) then Ok (t :: u :: rest)
      else rest' ← place t rest; mret (u :: rest')
  end.

Definition sorted (trades : list (gmap string Value))
  : Exc (list (gmap string Value)) :=
  fold_left (fun acc t => placed ← acc; place t placed) trades (Ok []).

(** The drawdown loop: [(running_pnl, peak, max_drawdown)] after the
    trades given. *)
Fixpoint drawdown_from (running_pnl peak max_drawdown : float)
    (trades : list (gmap string Value)) : Exc float :=
  match trades with
  | [] => Ok max_drawdown
  | trade :: rest =>
      x ← get_float "realized_pnl" trade;
      let running_pnl := (running_pnl + x)%float in
      let peak := if float_gt running_pnl peak then running_pnl else peak in
      let drawdown :=
        if float_gt peak 0%float then ((peak - running_pnl) / peak)%float else 0%float in
      let max_drawdown := if float_gt drawdown max_drawdown then drawdown else max_drawdown in
      drawdown_from running_pnl peak max_drawdown rest
  end.

Definition len {A : Type} (l : list A) : Z := Z.of_nat (length l).

(** [calculate_performance_metrics] *)
Definition calculate_performance_metrics (trade_records : list (gmap string Value))
    (start_date end_date : Z) : Exc PerformanceMetrics :=
  match trade_records with
  | [] =>
      Ok (mkMetrics 0 0 0 0 0 0 0 0 0 0 0 0 0 0 0 start_date end_date)
  | _ =>
      total_realized_pnl ← sum_of "realized_pnl" trade_records;
      total_commissions ← sum_of "commission" trade_records;
      total_fees ← sum_of "fees" trade_records;
      winning_trades ← select (fun x => float_gt x 0%float) trade_records;
      losing_trades ← select (fun x => float_lt x 0%float) trade_records;
      let win_rate := (float_of_Z (len winning_trades) / float_of_Z (len trade_records))%float in
      gross_profit ← sum_of "realized_pnl" winning_trades;
      losses ← sum_of "realized_pnl" losing_trades;
      let gross_loss := PrimFloat.abs losses in
      let profit_factor :=
        if float_gt gross_loss 0%float then (gross_profit / gross_loss)%float else infinity in
      let avg_winning_trade :=
        match winning_trades with
        | [] => 0%float
        | _ => (gross_profit / float_of_Z (len winning_trades))%float
        end in
      let avg_losing_trade :=
        match losing_trades with
        | [] => 0%float
        | _ => (- gross_loss / float_of_Z (len losing_trades))%float
        end in
      largest_win ← extreme (fun x held => float_gt x held) winning_trades;
      largest_loss ← extreme (fun x held => float_lt x held) losing_trades;
      chronological ← sorted trade_records;
      max_drawdown ← drawdown_from 0%float 0%float 0%float chronological;
      let net_pnl := (total_realized_pnl - total_commissions - total_fees)%float in
      Ok (mkMetrics total_realized_pnl 0%float total_commissions total_fees
                    net_pnl win_rate profit_factor max_drawdown
                    (len trade_records) (len winning_trades) (len losing_trades)
                    avg_winning_trade avg_losing_trade largest_win largest_loss
                    start_date end_date)
  end.

(** ** The job registry and the remote service *)

(** [models.FlexQueryStatus] *)
Inductive FlexQueryStatus := PENDING | RUNNING | COMPLETED | FAILED.

(** [models.FlexQueryResponse] *)
Record FlexQueryResponse := mkResponse {
  query_id : string;
  reference_code : option string;
  status : FlexQueryStatus;
  created_at : Z;
  completed_at : option Z;
  error_message : option string
}.

(** What one [GetStatement] request meets: [session.get] raises, or a
    response arrives with its status, its text and what
    [ET.fromstring] makes of the text. *)
Inductive Payload :=
| Unreachable (e : PyExc)
| Response (http_status : Z) (body : string) (xml : Exc Element).

(** A reply and the time, in microseconds, the request takes. *)
Record Reply := mkReply { latency : N; payload : Payload }.

(** The remote service: the reply to the n-th request made. *)
Definition Remote : Type := nat -> Reply.

(** What the service does that takes time: a request from the clock
    value at which it is made to the one at which its reply is there, a
    sleep started at a clock value for a number of seconds. *)
Inductive Event :=
| Fetch (started finished : Z)
| Sleep (started : Z) (seconds : Z).

(** [class FlexQueryService] and the world around it.  The clock counts
    microseconds; [requests] counts the [GetStatement] requests made;
    [events] lists, oldest first, the requests and sleeps. *)
Record Service := mkSvc {
  active_queries : gmap string FlexQueryResponse;
  clock : Z;
  requests : nat;
  events : list Event
}.

Definition microseconds (seconds : Z) : Z := seconds * 1000000.

(** [await asyncio.sleep(wait_time)]; a delay that is not positive does
    not wait. *)
Definition sleep (wait_time : Z) (w : Service) : Service :=
  mkSvc (active_queries w) (clock w + microseconds (Z.max 0 wait_time))
        (requests w) (events w ++ [Sleep (clock w) wait_time]).

(** A request is made and its reply awaited. *)
Definition request (reply : Reply) (w : Service) : Service :=
  mkSvc (active_queries w) (clock w + Z.of_N (latency reply))
        (S (requests w))
        (events w ++ [Fetch (clock w) (clock w + Z.of_N (latency reply))]).

Definition update_query (reference_code : string)
    (f : FlexQueryResponse -> FlexQueryResponse) (w : Service) : Service :=
  mkSvc (alter f reference_code (active_queries w)) (clock w) (requests w) (events w).

(** The two updates of a registry entry:
<<
      self.active_queries[reference_code].status = FlexQueryStatus.COMPLETED
      self.active_queries[reference_code].completed_at = datetime.now()
>>
    and
<<
      self.active_queries[reference_code].status = FlexQueryStatus.FAILED
      self.active_queries[reference_code].error_message = message
>> *)
Definition completed (now : Z) (q : FlexQueryResponse) : FlexQueryResponse :=
  mkResponse (query_id q) (reference_code q) COMPLETED (created_at q)
             (Some now) (error_message q).

Definition failed_with (message : string) (q : FlexQueryResponse)
  : FlexQueryResponse :=
  mkResponse (query_id q) (reference_code q) FAILED (created_at q)
             (completed_at q) (Some message).

(** Both updates are guarded by [if reference_code in self.active_queries]. *)
Definition mark_completed (reference_code : string) (w : Service) : Service :=
  update_query reference_code (completed (clock w)) w.

Definition mark_failed (reference_code : string) (message : string) (w : Service)
  : Service :=
  update_query reference_code (failed_with message) w.

(** [get_query_status] *)
Definition get_query_status (reference_code : string) (w : Service)
  : option FlexQueryResponse :=
  active_queries w !! reference_code.

(** The phrases by which the remote says that the statement is still
    being generated. *)
Definition not_ready_phrases : list string :=
  ["statement not yet available"; "statement is being generated";
   "report generation in progress"; "statement not ready"].

(** An [Optional[str]] inside an f-string. *)
Definition fmt (o : option string) : string := default "None" o.

(** The error that a statement document reports:
<<
      error_code = root.find(".//ErrorCode")
      if error_code is not None and error_code.text != "0":
          error_msg = root.find(".//ErrorMessage")
          error_text = f"Error {error_code.text}: {error_msg.text if error_msg is not None else 'Unknown error'}"
>> *)
Definition remote_error (root : Element) : option string :=
  match find "ErrorCode" root with
  | Some error_code =>
      if bool_decide (text error_code = Some "0") then None
      else
        Some ("Error " ++ fmt (text error_code) ++ ": "
              ++ match find "ErrorMessage" root with
                 | Some error_msg => fmt (text error_msg)
                 | None => "Unknown error"
                 end)
  | None => None
  end.

(** How the [try] block of one attempt of [get_flex_query_data] ends. *)
Inductive Step :=
| Retry (wait_time : Z)
| Return_ (data : FlexQueryData)
| Except (e : PyExc).

(** The [try] block of [get_flex_query_data] for one attempt, given the
    reply and the clock after it. *)
Definition attempt_body (reply : Reply) (reference_code : string)
    (max_retries attempt now : Z) : Step :=
  match payload reply with
  | Unreachable e => Except e
  | Response http_status response_text xml =>
      if negb (http_status =? 200) then
        if ((http_status >=? 500) || (http_status =? 408))
           && (attempt <? max_retries - 1)
        then Retry (2 ^ attempt + 1)
        else Except (mkExc Exception
                       ("HTTP " ++ pretty http_status ++ ": " ++ response_text))
      else
        match xml with
        | Raise e => Except e
        | Ok root =>
            match remote_error root with
            | Some error_text =>
                if any_in not_ready_phrases (lower error_text)
                   && (attempt <? max_retries - 1)
                then Retry (Z.min (15 + attempt * 15) 180)
                else Except (mkExc Exception error_text)
            | None =>
                match _parse_flex_query_xml root reference_code now with
                | Ok flex_data => Return_ flex_data
                | Raise e => Except e
                end
            end
        end
  end.

(** The loop [for attempt in range(max_retries)] of [get_flex_query_data]
    from attempt number [attempt] on, with [remaining] attempts left.
    When the range is exhausted the function ends without a [return]:
    it returns [None]. *)
Fixpoint get_flex_query_data_from (remote : Remote) (reference_code token : string)
    (max_retries : Z) (remaining : nat) (attempt : Z) (w : Service)
  : Service * Exc (option FlexQueryData) :=
  match remaining with
  | O => (w, Ok None)
  | S remaining' =>
      let reply := remote (requests w) in
      let w := request reply w in
      match attempt_body reply reference_code max_retries attempt (clock w) with
      | Retry wait_time =>
          get_flex_query_data_from remote reference_code token max_retries
                                   remaining' (attempt + 1) (sleep wait_time w)
      | Return_ flex_data =>
          (mark_completed reference_code w, Ok (Some flex_data))
      | Except e =>
          if attempt =? max_retries - 1 then
            (mark_failed reference_code (str e) w, Raise e)
          else if contains "statement not yet available" (lower (str e))
                  || contains "timeout" (lower (str e)) then
            get_flex_query_data_from remote reference_code token max_retries
                                     remaining' (attempt + 1)
                                     (sleep (2 ^ attempt + 10) w)
          else
            (mark_failed reference_code (str e) w, Raise e)
      end
  end.

(** [get_flex_query_data] *)
Definition get_flex_query_data (remote : Remote) (reference_code token : string)
    (max_retries : Z) (w : Service) : Service * Exc (option FlexQueryData) :=
  get_flex_query_data_from remote reference_code token max_retries
                           (Z.to_nat max_retries) 0 w.

(** ** The completion waiter *)

(** [f"{elapsed:.0f}"] for an elapsed time given in microseconds: the
    number of seconds rounded to the nearest integer, ties to even.
    ([total_seconds()] is the nearest float to that number of seconds,
    which rounds to the same integer for any wait shorter than years.) *)
Definition round_seconds (elapsed : Z) : Z :=
  let q := elapsed / 1000000 in
  let r := elapsed mod 1000000 in
  if (500000 <? r) || ((r =? 500000) && Z.odd q) then q + 1 else q.

Definition timeout_message (reference_code : string) (elapsed : Z) : string :=
  "Flex query " ++ reference_code ++ " timed out after "
  ++ pretty (round_seconds elapsed) ++ " seconds".

(** The delay before the next poll. *)
Definition backoff (check_interval attempt : Z) : Z :=
  if attempt <? 6 then check_interval
  else if attempt <? 18 then 15
  else 20.

(** The [while] loop of [wait_for_query_completion] and the code after
    it, with a bound on the number of times the loop condition is
    evaluated; [None] when the bound is reached. *)
Fixpoint wait_loop (remote : Remote) (reference_code token : string)
    (max_wait_time check_interval start_time : Z) (fuel : nat) (attempt : Z)
    (w : Service) : option (Service * Exc (option FlexQueryData)) :=
  match fuel with
  | O => None
  | S fuel' =>
      if clock w - start_time <? microseconds max_wait_time then
        let '(w, r) := get_flex_query_data remote reference_code token 1 w in
        match r with
        | Ok data => Some (w, Ok data)
        | Raise e =>
            if any_in not_ready_phrases (lower (str e)) then
              wait_loop remote reference_code token max_wait_time check_interval
                        start_time fuel' (attempt + 1)
                        (sleep (backoff check_interval attempt) w)
            else Some (w, Raise e)
        end
      else
        let timeout_msg := timeout_message reference_code (clock w - start_time) in
        Some (mark_failed reference_code timeout_msg w,
              Raise (mkExc Exception timeout_msg))
  end.

(** Enough evaluations of the loop condition: six short polls, then one
    poll every fifteen seconds or more, and the evaluation that ends the
    loop. *)
Definition wait_fuel (max_wait_time : Z) : nat :=
  8 + Z.to_nat (max_wait_time / 15).

(** [wait_for_query_completion] *)
Definition wait_for_query_completion (remote : Remote)
    (reference_code token : string) (max_wait_time check_interval : Z)
    (w : Service) : option (Service * Exc (option FlexQueryData)) :=
  wait_loop remote reference_code token max_wait_time check_interval
            (clock w) (wait_fuel max_wait_time) 0 w.

(** ** Submission *)

(** The [try] block of [execute_flex_query] up to the reference code:
    the text of the [ReferenceCode] element, which is [None] for an
    element without text, or the exception raised on the way. *)
Definition submit_outcome (reply : Reply) : Exc (option string) :=
  match payload reply with
  | Unreachable e => Raise e
  | Response http_status response_text xml =>
      if negb (http_status =? 200) then
        Raise (mkExc Exception
                 ("HTTP " ++ pretty http_status ++ ": " ++ response_text))
      else
        root ← xml;
        match find "Status" root with
        | None =>
            Raise (mkExc Exception "Invalid response format: no Status element")
        | Some status_element =>
            if bool_decide (text status_element = Some "Success") then
              match find "ReferenceCode" root with
              | None => Raise (mkExc Exception "No reference code in response")
              | Some reference_code_element => Ok (text reference_code_element)
              end
            else
              Raise (mkExc Exception
                       ("Error "
                        ++ match find "ErrorCode" root with
                           | Some error_code => fmt (text error_code)
                           | None => "Unknown"
                           end
                        ++ ": "
                        ++ match find "ErrorMessage" root with
                           | Some error_msg => fmt (text error_msg)
                           | None => "Unknown error"
                           end))
        end
  end.

(** [execute_flex_query] for the reply that the [SendRequest] request
    meets.  [self.active_queries] is indexed by the reference code of
    the response, which is [None] when the [ReferenceCode] element has no
    text; the entry under the key [None], which no reference code looks
    up, is the first component of the state here.  The request takes its
    time but is not one of the polls that [requests] and [events] record.
    The function catches every exception and returns a response. *)
Definition execute_flex_query (reply : Reply) (query_id token : string)
    (state : option FlexQueryResponse * Service)
  : (option FlexQueryResponse * Service) * FlexQueryResponse :=
  let '(under_none, w) := state in
  let w := mkSvc (active_queries w) (clock w + Z.of_N (latency reply))
                 (requests w) (events w) in
  match submit_outcome reply with
  | Ok reference_code =>
      let flex_response :=
        mkResponse query_id reference_code RUNNING (clock w) None None in
      (match reference_code with
       | Some reference =>
           (under_none,
            mkSvc (<[reference := flex_response]> (active_queries w))
                  (clock w) (requests w) (events w))
       | None => (Some flex_response, w)
       end, flex_response)
  | Raise e =>
      ((under_none, w), mkResponse query_id None FAILED (clock w) None (Some (str e)))
  end.

End FlexQueryService.

(* ===================================================================== *)
(** * Notions used in the statements *)
(* ===================================================================== *)

Module HealthNotions.
Import Py ConnectionHealthMonitor.

(** The dictionary [_detailed_health_check] builds: one entry for each
    of the three sub-checks, in the order the source assigns them. *)
Definition three_checks (account market positions : CheckData)
  : list (string * CheckData) :=
  [("account_access", account); ("market_data", market);
   ("positions_access", positions)].

(** The sub-checks that succeeded, and those among them that carry a
    quality warning. *)
Definition successes (d : list (string * CheckData)) : Z :=
  Z.of_nat (length (filter (fun kv => success kv.2 = true) d)).

Definition warnings (d : list (string * CheckData)) : Z :=
  Z.of_nat (length (filter (fun kv => success kv.2 && warns kv.1 kv.2 = true) d)).

(** The recovery counter of a broker: [self.recovery_attempts.get(b, 0)]. *)
Definition recovery_count (m : Monitor) (b : string) : Z :=
  default 0 (recovery_attempts m !! b).

(** No counter exceeds the budget. *)
Definition within_budget (m : Monitor) : Prop :=
  forall b, recovery_count m b <= max_recovery_attempts m.

(** The subscriber calls that one change of health causes. *)
Definition calls_for (cbs : list Callback) (b : string) (h : ConnectionHealth)
  : list Invocation :=
  map (fun i => (i, b, h)) (seq 0 (length cbs)).

(** The result of checking [b] from state [m]. *)
Definition result_of (recover : string -> bool) (svc : BrokerService)
    (now : string -> Z) (m : Monitor) (b : string) : HealthCheckResult :=
  (check_broker_health_with recover svc (now b) b m).2.

(** A transition: there is no recorded result, or the recorded health
    differs from the new one. *)
Definition transition (old : option HealthCheckResult) (new : ConnectionHealth)
  : bool :=
  match old with
  | None => true
  | Some o => bool_decide (health o <> new)
  end.

(** The subscriber calls expected in a tick that starts in state [m]:
    for each broker in turn, one call of every subscriber if the check
    makes a transition, none otherwise. *)
Definition expected_calls (recover : string -> bool) (svc : BrokerService)
    (now : string -> Z) (m : Monitor) (brokers : list string) : list Invocation :=
  flat_map (fun b =>
              let r := result_of recover svc now m b in
              if transition (health_checks m !! b) (health r)
              then calls_for (callbacks m) b (health r) else [])
           brokers.

(** *** A monitor to try the statements on *)

Definition ok_check : CheckData :=
  mkCheck true (Some 12%float) (Some "good") None None None None.
Definition failed_check : CheckData :=
  mkCheck false None None (Some "timed out") None None None.

(** Two brokers: [ibkr] is connected and answers every sub-check, [mt5]
    is disconnected. *)
Definition desk : BrokerService :=
  mkService ["ibkr"; "mt5"]
    (fun b => Ok (mkConnection (if bool_decide (b = "mt5") then DISCONNECTED
                                else CONNECTED) None))
    (fun _ => mkTimed 12%float (Ok (mkAccount "DU123")))
    (fun _ _ => mkTimed 8%float (Ok (mkMarket 1.5%float 1.75%float)))
    (fun _ => mkTimed 5%float (Ok 2)).

Definition failing_subscriber : Callback :=
  fun _ _ => Raise (mkExc Exception "subscriber is down").
Definition quiet_subscriber : Callback := fun _ _ => Ok tt.

(** A monitor with two subscribers that has used up the recovery budget
    of [mt5]. *)
Definition exhausted : Monitor :=
  mkMonitor ∅ {[ "mt5" := 3 ]} 3 [failing_subscriber; quiet_subscriber] [] [].

Definition at_noon : string -> Z := fun _ => 43200.

End HealthNotions.

Module FlexNotions.
Import Py ET FlexQueryService.

(** ** Parser *)

(** The attribute [key] of an element is absent or parses as a number. *)
Definition numeric (key : string) (e : Element) : bool :=
  match attrib e !! key with
  | Some s => bool_decide (is_Some (float_of_chars (chars s)))
  | None => true
  end.

Definition all_numeric (keys : list string) (e : Element) : bool :=
  forallb (fun key => numeric key e) keys.

(** The attributes that the trade and cash parsers hand to [float]. *)
Definition trade_numbers : list string :=
  ["quantity"; "price"; "proceeds"; "commission"; "realizedPL"].
Definition cash_numbers : list string := ["amount"].

(** The error [float] raises for text that is not a number. *)
Definition not_a_number (e : PyExc) : Prop :=
  exists s, float_of_chars (chars s) = None /\
            e = mkExc ValueError ("could not convert string to float: " ++ repr s).

(** What a trade record owes to the element it was made from. *)
Definition trade_record_of (e : Element) (r : gmap string Value) : Prop :=
  (forall v, r !! "quantity" = Some v -> is_float v = true) /\
  (forall v, r !! "price" = Some v -> is_float v = true) /\
  (is_Some (attrib e !! "quantity") -> exists f, r !! "quantity" = Some (VFloat f)) /\
  (is_Some (attrib e !! "price") -> exists f, r !! "price" = Some (VFloat f)) /\
  (is_Some (attrib e !! "realizedPL") -> exists f, r !! "realized_pnl" = Some (VFloat f)).

Definition trade_element (quantity price pl : string) : Element :=
  Elem "Trade"
       {[ "symbol" := "AAPL"; "tradeDate" := "20240102";
          "quantity" := quantity; "price" := price; "realizedPL" := pl ]}
       None [].

Definition statement (content : list Element) : Element :=
  Elem "FlexQueryResponse" ∅ None
       [Elem "FlexStatements" ∅ None
             [Elem "FlexStatement" ∅ None content]].

Definition three_trades : Element :=
  statement [Elem "Trades" ∅ None
               [trade_element "100" "187.25" "0";
                trade_element "-100" "190.5" "325";
                trade_element "10" "12" "-4.5"]].

(** The attributes that each of the four parsers hands to [float],
    each with the key under which the record holds the number. *)
Definition trade_fields : list (string * string) :=
  [("quantity", "quantity"); ("price", "price"); ("proceeds", "proceeds");
   ("commission", "commission"); ("realizedPL", "realized_pnl")].
Definition cash_fields : list (string * string) := [("amount", "amount")].
Definition position_fields : list (string * string) :=
  [("position", "position"); ("markPrice", "mark_price");
   ("positionValue", "position_value"); ("unrealizedPL", "unrealized_pnl")].
Definition dividend_fields : list (string * string) := [("totalCash", "amount")].

(** The record containers that [_parse_flex_query_xml] recognises, in
    the order in which it looks for them: the tag of the elements, the
    data type of the result and the numeric fields. *)
Definition containers : list (string * string * list (string * string)) :=
  [("Trade", "trades", trade_fields);
   ("CashTransaction", "cash_transactions", cash_fields);
   ("OpenPosition", "positions", position_fields);
   ("ChangeInDividendAccrual", "dividends", dividend_fields)].

(** The container from which the records of a document are taken: the
    first of them that has an element below the root. *)
Definition container_of (root : Element)
  : option (string * string * list (string * string)) :=
  List.find (fun c => bool_decide (findall c.1.1 root <> [])) containers.

(** The record [r] holds, for every numeric attribute that the element
    [e] has, the number that the text of the attribute denotes. *)
Definition coerced (fields : list (string * string)) (e : Element)
    (r : gmap string Value) : Prop :=
  forall a k s, (a, k) ∈ fields -> attrib e !! a = Some s ->
    exists f, float_of_chars (chars s) = Some f /\ r !! k = Some (VFloat f).

(** The outcome of parsing a document whose records come from the
    elements [elements], parsed as [label]: when all the numeric
    attributes parse, one record for each element, in order, with the
    numbers in it; the error of [float] otherwise. *)
Definition all_or_nothing (label : string) (fields : list (string * string))
    (elements : list Element) (reference_code : string) (now : Z)
    (outcome : Exc FlexQueryData) : Prop :=
  if forallb (all_numeric (map fst fields)) elements
  then exists rs, outcome = Ok (mkData reference_code label rs (len rs) now) /\
                  Forall2 (coerced fields) elements rs
  else exists err, outcome = Raise err /\ not_a_number err.

Definition bad_quantity : Element :=
  statement [Elem "Trades" ∅ None
               [trade_element "100" "187.25" "0";
                trade_element "n/a" "190.5" "325"]].

(** ** Metrics *)

(** A trade without commission and fee fields. *)
Definition no_costs (trade : gmap string Value) : Prop :=
  trade !! "commission" = None /\ trade !! "fees" = None.

(** Two sort keys that [<] can compare: both text or both numbers. *)
Definition comparable (a b : Value) : Prop := is_float a = is_float b.

Definition winner : gmap string Value :=
  {[ "symbol" := VStr "AAPL"; "trade_date" := VStr "20240102";
     "realized_pnl" := VFloat 100 ]}.
Definition loser : gmap string Value :=
  {[ "symbol" := VStr "MSFT"; "trade_date" := VStr "20240103";
     "realized_pnl" := VFloat (-40) ]}.

(** ** Waiter *)

(** The reply is a statement document that reports one of the
    "still being generated" errors. *)
Definition not_ready_reply (reply : Reply) : bool :=
  match payload reply with
  | Response http_status _ (Ok root) =>
      (http_status =? 200) &&
      match remote_error root with
      | Some error_text => any_in not_ready_phrases (lower error_text)
      | None => false
      end
  | _ => false
  end.

(** The exception that [wait_for_query_completion] raises when the
    budget is used up. *)
Definition Timeout (reference_code : string) (elapsed : Z) : PyExc :=
  mkExc Exception (timeout_message reference_code elapsed).

(** Events follow one another without gaps from clock [t] to clock
    [t']; every sleep lasts the whole delay asked for. *)
Fixpoint chained (t : Z) (evs : list Event) (t' : Z) : Prop :=
  match evs with
  | [] => t = t'
  | Fetch a b :: rest => a = t /\ a <= b /\ chained b rest t'
  | Sleep a s :: rest => a = t /\ chained (a + microseconds (Z.max 0 s)) rest t'
  end.

(** A request made within the budget, or a sleep of the polling
    schedule. *)
Definition scheduled (start_time max_wait_time check_interval : Z) (ev : Event)
  : Prop :=
  match ev with
  | Fetch a _ => a - start_time < microseconds max_wait_time
  | Sleep _ s => s = check_interval \/ s = 15 \/ s = 20
  end.

(** A bound on the polls still to come: the short polls left, and the
    quarter minutes left in the budget. *)
Definition polls_left (max_wait_time attempt elapsed : Z) : nat :=
  (Z.to_nat (Z.max 0 (6 - attempt)) +
   Z.to_nat ((Z.max 0 (microseconds max_wait_time - elapsed) + 14999999) / 15000000))%nat.

(** How a call of the waiter that started at [start_time] ends: with
    the data of its last poll, with an error of its last poll that is
    not a "still being generated" error, or with the timeout, raised
    when the budget is used up. *)
Definition ends (reference_code : string) (max_wait_time start_time : Z)
    (w' : Service) (r : Exc (option FlexQueryData)) : Prop :=
  (exists d, r = Ok (Some d)) \/
  (exists e, r = Raise e /\ any_in not_ready_phrases (lower (str e)) = false) \/
  (r = Raise (Timeout reference_code (clock w' - start_time)) /\
   microseconds max_wait_time <= clock w' - start_time).

Definition doc (code message : string) : Element :=
  Elem "FlexStatementResponse" ∅ None
       [Elem "Status" ∅ (Some "Warn") [];
        Elem "ErrorCode" ∅ (Some code) [];
        Elem "ErrorMessage" ∅ (Some message) []].

Definition still_generating : Reply :=
  mkReply 0 (Response 200 "<FlexStatementResponse/>"
               (Ok (doc "1019" "Statement is being generated, try again shortly"))).

Definition never_ready : Remote := fun _ => still_generating.

Definition one_trade : Element :=
  Elem "FlexQueryResponse" ∅ None
       [Elem "Trade" {[ "symbol" := "AAPL"; "quantity" := "100";
                        "price" := "187.25"; "realizedPL" := "0" ]} None []].

Definition statement_ready : Reply :=
  mkReply 2000000 (Response 200 "<FlexQueryResponse/>" (Ok one_trade)).

(** A remote that answers "still being generated" [n] times and then
    delivers the statement. *)
Definition ready_after (n : nat) : Remote :=
  fun k => if (k <? n)%nat then still_generating else statement_ready.

Definition job : FlexQueryResponse :=
  mkResponse "Q1" (Some "REF1") RUNNING 0 None None.

Definition fresh : Service := mkSvc {[ "REF1" := job ]} 0 0 [].

End FlexNotions.

(* ===================================================================== *)
(** * Further notions *)
(* ===================================================================== *)

Module FetchNotions.
Import Py ET FlexQueryService FlexNotions.








End FetchNotions.

Module SubmitNotions.
Import Py ET FlexQueryService FlexNotions.

(** A [SendRequest] answer that accepts the query under a reference. *)
Definition accepted (reference : option string) : Reply :=
  mkReply 300000
    (Response 200 "<FlexStatementResponse/>"
       (Ok (Elem "FlexStatementResponse" ∅ None
              [Elem "Status" ∅ (Some "Success") [];
               Elem "ReferenceCode" ∅ reference []]))).

End SubmitNotions.

Module RecordNotions.
Import Py ET FlexQueryService FlexNotions.










End RecordNotions.

Module MetricsNotions.
Import Py ET FlexQueryService FlexNotions.



(** The realized P&L of a trade, where it can be read. *)
Definition pnl (trade : gmap string Value) : float :=
  match get_float "realized_pnl" trade with Ok x => x | Raise _ => 0%float end.






Definition losses (trades : list (gmap string Value)) : list (gmap string Value) :=
  List.filter (fun t => float_lt (pnl t) 0%float) trades.


End MetricsNotions.

Module MonitorNotions.
Import Py ConnectionHealthMonitor HealthNotions.


(** The symbol that [_detailed_health_check] asks market data for. *)
Definition test_symbol (broker_id : string) : string :=
  if bool_decide (broker_id = "ibkr") then "AAPL" else "EURUSD".









(** The result of a check whose status call raised. *)
Definition unknown_result (broker_id : string) : HealthCheckResult :=
  mkResult broker_id UNKNOWN 0 (Some "no answer") [].

End MonitorNotions.

(* ===================================================================== *)
(** * Properties of the connection health monitor *)
(* ===================================================================== *)

Module HealthProps.
Import Py ConnectionHealthMonitor HealthNotions.

(** ** Classification *)

(** The loop of [_determine_health_status] counts the sub-checks, those
    that succeeded and, among these, those with a quality warning. *)
Lemma count_checks_counts d : forall s t w,
  count_checks d (s, t, w)
  = (s + successes d, t + Z.of_nat (length d), w + warnings d).
Proof.
  induction d as [|[k c] d IH]; intros s t w; cbn [count_checks].
  - unfold successes, warnings. cbn. f_equal; try lia; f_equal; lia.
  - unfold successes, warnings in *. rewrite !filter_cons. cbn [fst snd].
    destruct (success c) eqn:Hs; cbn [andb].
    + destruct (warns k c) eqn:Hw; rewrite IH;
        repeat case_decide; try done; cbn [length];
        (f_equal; try lia; f_equal; lia).
    + rewrite IH. repeat case_decide; try done; cbn [length];
        (f_equal; try lia; f_equal; lia).
Qed.

(** For any number of sub-checks: Healthy exactly when all succeed
    without a quality warning. *)
Lemma healthy_iff_all_succeed_without_warning d :
  _determine_health_status d = HEALTHY <->
  successes d = Z.of_nat (length d) /\ warnings d = 0.
Proof.
  unfold _determine_health_status. rewrite count_checks_counts.
  rewrite !Z.add_0_l.
  destruct (decide (successes d = Z.of_nat (length d))) as [Hs|Hs];
    destruct (decide (warnings d = 0)) as [Hw|Hw];
    rewrite ?(bool_decide_eq_true_2 _ Hs), ?(bool_decide_eq_false_2 _ Hs),
            ?(bool_decide_eq_true_2 _ Hw), ?(bool_decide_eq_false_2 _ Hw);
    cbn [andb]; [tauto|..];
    (split; [destruct (float_ge _ _); discriminate|tauto]).
Qed.

(** C1, as stated, fails: two successes out of three are below the 70%
    threshold, so the monitor reports Unhealthy, not Degraded. *)
Lemma two_of_three_is_not_degraded :
  successes (three_checks ok_check ok_check failed_check) = 2 /\
  warnings (three_checks ok_check ok_check failed_check) = 0 /\
  _determine_health_status (three_checks ok_check ok_check failed_check) = UNHEALTHY /\
  _determine_health_status (three_checks ok_check ok_check failed_check) <> DEGRADED.
Proof.
  split; [reflexivity|]. split; [reflexivity|].
  split; [vm_compute; reflexivity | vm_compute; discriminate].
Qed.

(** C1, amended: for every three sub-check results the classification is
    Healthy exactly when all three succeed without a quality warning,
    Degraded exactly when at least 70% succeed and the Healthy condition
    fails, and Unhealthy exactly when fewer than 70% succeed; with three
    sub-checks the last case is two or fewer successes, so both 2 of 3
    and 0 of 3 classify as Unhealthy. *)
Theorem classification_of_three_checks (account market positions : CheckData) :
  let d := three_checks account market positions in
  let s := _determine_health_status d in
  (s = HEALTHY <-> successes d = 3 /\ warnings d = 0) /\
  (s = DEGRADED <->
     7 * 3 <= 10 * successes d /\ ~ (successes d = 3 /\ warnings d = 0)) /\
  (s = UNHEALTHY <-> 10 * successes d < 7 * 3) /\
  (s = UNHEALTHY <-> successes d <= 2).
Proof.
  destruct account as [sa ? ? ? ? ? ?], market as [sm ? ? ? ? ? ?],
           positions as [sp ? ? ? ? ? ?].
  cbv zeta.
  unfold _determine_health_status, three_checks, successes, warnings.
  cbn [count_checks success].
  destruct sa, sm, sp; cbn.
  all: repeat match goal with
       | |- context [warns ?n ?c] => destruct (warns n c) eqn:?
       end; cbn.
  all: vm_compute; intuition (try discriminate; try congruence).
Qed.

(** ** One check *)

Section Checks.

Variable recover : string -> bool.
Variable svc : BrokerService.

Lemma check_keeps_registry start b m :
  let m' := (check_broker_health_with recover svc start b m).1 in
  health_checks m' = health_checks m /\
  max_recovery_attempts m' = max_recovery_attempts m /\
  callbacks m' = callbacks m /\
  invoked m' = invoked m /\
  error_log m' = error_log m.
Proof.
  unfold check_broker_health_with.
  destruct (get_broker_status svc b) as [c|e]; [|done].
  destruct (status c); try done.
  - by case_bool_decide.
  - destruct (_ <? _); [|done]. by destruct (recover b).
Qed.

Lemma check_other_counters start b b' m :
  b' <> b ->
  recovery_attempts (check_broker_health_with recover svc start b m).1 !! b'
  = recovery_attempts m !! b'.
Proof.
  intros Hne. unfold check_broker_health_with.
  destruct (get_broker_status svc b) as [c|e]; [|done].
  destruct (status c); try done.
  - case_bool_decide; [|done]. cbn. by rewrite lookup_delete_ne.
  - destruct (_ <? _); [|done]. destruct (recover b); cbn.
    + by rewrite lookup_delete_ne.
    + by rewrite lookup_insert_ne.
Qed.

(** The result of a check depends on the monitor only through the
    budget and the counter of the broker checked. *)
Lemma check_result_depends start b m1 m2 :
  max_recovery_attempts m1 = max_recovery_attempts m2 ->
  recovery_attempts m1 !! b = recovery_attempts m2 !! b ->
  (check_broker_health_with recover svc start b m1).2
  = (check_broker_health_with recover svc start b m2).2.
Proof.
  intros Hmax Hcnt. unfold check_broker_health_with.
  destruct (get_broker_status svc b) as [c|e]; [|done].
  destruct (status c); cbn; try done.
  rewrite Hmax, Hcnt.
  destruct (_ <? _); cbn; [|done].
  destruct (recover b); cbn; [done|]. by rewrite !lookup_insert_eq.
Qed.

(** Some broker has no counter, so a budget that no counter exceeds is
    not negative. *)
Lemma budget_not_negative m :
  within_budget m -> 0 <= max_recovery_attempts m.
Proof.
  intros Hinv. specialize (Hinv (fresh (dom (recovery_attempts m)))).
  unfold recovery_count in Hinv.
  rewrite (not_elem_of_dom_1 (recovery_attempts m)) in Hinv by apply is_fresh.
  done.
Qed.

Lemma check_within_budget start b m :
  within_budget m ->
  within_budget (check_broker_health_with recover svc start b m).1.
Proof.
  intros Hinv. pose proof (budget_not_negative m Hinv) as Hmax.
  unfold check_broker_health_with.
  destruct (get_broker_status svc b) as [c|e]; [|done].
  assert (Hpop : within_budget
            (set_recovery_attempts (delete b (recovery_attempts m)) m)).
  { intros b'. unfold recovery_count. cbn.
    destruct (decide (b = b')) as [<-|Hne].
    - by rewrite lookup_delete_eq.
    - rewrite lookup_delete_ne by done. apply Hinv. }
  destruct (status c); try done.
  - by case_bool_decide.
  - destruct (_ <? _) eqn:Hlt; [|done]. apply Z.ltb_lt in Hlt.
    destruct (recover b); [done|].
    intros b'. unfold recovery_count. cbn.
    destruct (decide (b = b')) as [<-|Hne].
    + rewrite lookup_insert_eq. cbn. lia.
    + rewrite lookup_insert_ne by done. apply Hinv.
Qed.

Lemma healthy_clears_counter start b m :
  health (check_broker_health_with recover svc start b m).2 = HEALTHY ->
  recovery_attempts (check_broker_health_with recover svc start b m).1 !! b = None.
Proof.
  unfold check_broker_health_with.
  destruct (get_broker_status svc b) as [c|e]; [|done].
  destruct (status c); try done.
  - cbn. intros ->. cbn. apply lookup_delete_eq.
  - destruct (_ <? _); [|done].
    destruct (recover b); [|done]. intros _. apply lookup_delete_eq.
Qed.

Lemma disconnected_details start b m c :
  get_broker_status svc b = Ok c -> status c = DISCONNECTED ->
  let m' := (check_broker_health_with recover svc start b m).1 in
  let r := (check_broker_health_with recover svc start b m).2 in
  (health r = UNHEALTHY ->
     details r = [("recovery_attempts", DInt (recovery_count m' b))]) /\
  (max_recovery_attempts m <= recovery_count m b ->
     health r = UNHEALTHY /\ m' = m /\
     details r = [("recovery_attempts", DInt (recovery_count m b))]).
Proof.
  intros Hst Hc. cbv zeta. unfold check_broker_health_with, recovery_count.
  rewrite Hst, Hc.
  destruct (_ <? _) eqn:Hlt.
  - apply Z.ltb_lt in Hlt. split; [|lia].
    by destruct (recover b).
  - done.
Qed.

(** C7: a health check keeps every recovery counter within
    [max_recovery_attempts] and leaves the budget as it is; a check that
    classifies the broker Healthy (a successful recovery included)
    leaves its counter at zero; a disconnected broker that is reported
    Unhealthy carries its counter in the details of the result, and once
    the budget is used up it is reported Unhealthy, with the count, and
    no further recovery is attempted. *)
Theorem recovery_budget start b m :
  within_budget m ->
  let m' := (check_broker_health_with recover svc start b m).1 in
  let r := (check_broker_health_with recover svc start b m).2 in
  within_budget m' /\
  max_recovery_attempts m' = max_recovery_attempts m /\
  (health r = HEALTHY -> recovery_count m' b = 0) /\
  (forall c, get_broker_status svc b = Ok c -> status c = DISCONNECTED ->
     (health r = UNHEALTHY ->
        details r = [("recovery_attempts", DInt (recovery_count m' b))]) /\
     (max_recovery_attempts m <= recovery_count m b ->
        health r = UNHEALTHY /\ m' = m /\
        details r = [("recovery_attempts", DInt (recovery_count m b))])).
Proof.
  intros Hinv. cbv zeta. split; [|split; [|split]].
  - by apply check_within_budget.
  - apply check_keeps_registry.
  - intros Hh. unfold recovery_count. by rewrite healthy_clears_counter.
  - intros c Hst Hc. exact (disconnected_details start b m c Hst Hc).
Qed.

(** ** The tick *)

Lemma notify_spec cbs : forall position b h m,
  let m' := notify cbs position b h m in
  invoked m' = (invoked m ++ map (fun i => (i, b, h)) (seq position (length cbs)))%list /\
  health_checks m' = health_checks m /\
  recovery_attempts m' = recovery_attempts m /\
  max_recovery_attempts m' = max_recovery_attempts m /\
  callbacks m' = callbacks m.
Proof.
  induction cbs as [|cb cbs IH]; intros position b h m; cbn.
  - by rewrite app_nil_r.
  - destruct (IH (S position) b h
                (mkMonitor (health_checks m) (recovery_attempts m)
                   (max_recovery_attempts m) (callbacks m)
                   (invoked m ++ [(position, b, h)])
                   match cb b h with
                   | Ok _ => error_log m
                   | Raise e => (error_log m ++ [("Health callback error: " ++ str e)%string])%list
                   end)) as (Hi & Hh & Hr & Hm & Hc).
    cbn in *. rewrite Hi, <- app_assoc. done.
Qed.

Lemma health_changed_transition old r :
  health_changed old r = transition old (health r).
Proof.
  destruct old as [o|]; [|done]. cbn.
  by destruct (decide (health o = health r));
    [rewrite bool_decide_eq_true_2, bool_decide_eq_false_2 by auto
    |rewrite bool_decide_eq_false_2, bool_decide_eq_true_2 by auto].
Qed.

Section Tick.
Variable now : string -> Z.

Lemma check_one_spec b m1 res1 :
  let r := result_of recover svc now m1 b in
  let m' := (check_one recover svc now b (m1, res1)).1 in
  let res' := (check_one recover svc now b (m1, res1)).2 in
  invoked m' =
    (invoked m1 ++ if transition (health_checks m1 !! b) (health r)
                   then calls_for (callbacks m1) b (health r) else [])%list /\
  health_checks m' = <[b := r]> (health_checks m1) /\
  res' = <[b := r]> res1 /\
  recovery_attempts m' =
    recovery_attempts (check_broker_health_with recover svc (now b) b m1).1 /\
  max_recovery_attempts m' = max_recovery_attempts m1 /\
  callbacks m' = callbacks m1.
Proof.
  cbv zeta. unfold check_one, result_of.
  destruct (check_keeps_registry (now b) b m1) as (Hh & Hm & Hc & Hi & _).
  destruct (check_broker_health_with recover svc (now b) b m1) as [m2 r].
  cbn in *. rewrite health_changed_transition, Hh.
  destruct (transition _ _).
  - destruct (notify_spec (callbacks m2) 0 b (health r) m2) as (Hi' & Hh' & Hr' & Hm' & Hc').
    cbn. rewrite Hi', Hh', Hh, Hr', Hm', Hc', Hi, Hm, Hc. done.
  - cbn. rewrite Hi, Hh, Hm, Hc, app_nil_r. done.
Qed.

Lemma tick_from m0 bs : forall m1 res1,
  NoDup bs ->
  max_recovery_attempts m1 = max_recovery_attempts m0 ->
  callbacks m1 = callbacks m0 ->
  (forall b, b ∈ bs ->
     recovery_attempts m1 !! b = recovery_attempts m0 !! b /\
     health_checks m1 !! b = health_checks m0 !! b) ->
  let step := fun acc b => check_one recover svc now b acc in
  let m' := (fold_left step bs (m1, res1)).1 in
  let res' := (fold_left step bs (m1, res1)).2 in
  invoked m' = (invoked m1 ++ expected_calls recover svc now m0 bs)%list /\
  (forall b, b ∈ bs ->
     health_checks m' !! b = Some (result_of recover svc now m0 b) /\
     res' !! b = Some (result_of recover svc now m0 b)) /\
  (forall b, b ∉ bs ->
     health_checks m' !! b = health_checks m1 !! b /\ res' !! b = res1 !! b).
Proof.
  induction bs as [|b bs IH]; intros m1 res1 Hnd Hmax Hcb Hagree;
    cbv zeta; cbn [fold_left].
  - cbn. rewrite app_nil_r. split; [done|]. split; [|done].
    intros b Hb. by apply elem_of_nil in Hb.
  - apply NoDup_cons in Hnd as [Hnotin Hnd].
    destruct (Hagree b) as [Hrb Hhb]; [by left|].
    assert (Hres : result_of recover svc now m1 b = result_of recover svc now m0 b).
    { apply check_result_depends; done. }
    destruct (check_one_spec b m1 res1) as (Hi & Hh & Hr & Hra & Hm & Hc).
    rewrite Hres, Hhb, Hcb in Hi. rewrite Hres in Hh, Hr.
    destruct (check_one recover svc now b (m1, res1)) as [m2 res2].
    cbn [fst snd] in *.
    destruct (IH m2 res2) as (IHi & IHin & IHout); try done; try congruence.
    { intros b' Hb'. assert (b' <> b) by (intros ->; done).
      rewrite Hra, Hh, check_other_counters, lookup_insert_ne by done.
      apply Hagree. by right. }
    split; [|split].
    + rewrite IHi, Hi, <- app_assoc. done.
    + intros b' [->|Hb']%elem_of_cons; [|by apply IHin].
      destruct (IHout b Hnotin) as [-> ->].
      by rewrite Hh, Hr, !lookup_insert_eq.
    + intros b' [Hne Hb']%not_elem_of_cons.
      destruct (IHout b' Hb') as [-> ->].
      by rewrite Hh, Hr, !lookup_insert_ne.
Qed.

Lemma within_budget_ext m1 m2 :
  recovery_attempts m2 = recovery_attempts m1 ->
  max_recovery_attempts m2 = max_recovery_attempts m1 ->
  within_budget m1 -> within_budget m2.
Proof.
  intros Hr Hm Hinv b. unfold recovery_count. rewrite Hr, Hm. apply Hinv.
Qed.

Lemma check_one_within_budget b m1 res1 :
  within_budget m1 ->
  within_budget (check_one recover svc now b (m1, res1)).1.
Proof.
  intros Hinv.
  destruct (check_one_spec b m1 res1) as (_ & _ & _ & Hr & Hm & _).
  eapply within_budget_ext; [exact Hr| |by apply (check_within_budget (now b) b)].
  rewrite Hm. symmetry. apply check_keeps_registry.
Qed.

(** The invariant of C7 holds when the monitor is created and is kept by
    a tick and by a forced check. *)
Lemma new_monitor_within_budget : within_budget __init__.
Proof. intros b. unfold recovery_count. cbn. by rewrite lookup_empty. Qed.

Lemma tick_within_budget m :
  within_budget m ->
  within_budget (check_all_brokers_health_with recover svc now m).1.
Proof.
  unfold check_all_brokers_health_with.
  generalize (∅ : gmap string HealthCheckResult).
  revert m. induction (get_supported_brokers svc) as [|b bs IH];
    intros m res Hinv; [done|].
  cbn [fold_left].
  pose proof (check_one_within_budget b m res Hinv) as Hstep.
  destruct (check_one recover svc now b (m, res)) as [m1 res1].
  by apply IH.
Qed.

Lemma forced_check_within_budget id m :
  within_budget m ->
  within_budget (force_health_check_with recover svc now id m).1.
Proof.
  intros Hinv. unfold force_health_check_with.
  destruct id as [id|]; [|by apply tick_within_budget].
  case_bool_decide; [by apply tick_within_budget|].
  pose proof (check_within_budget (now id) id m Hinv) as Hstep.
  destruct (check_broker_health_with recover svc (now id) id m) as [m1 r].
  by eapply within_budget_ext; [..|exact Hstep].
Qed.

(** C8: in a tick over the registered brokers, taken in order, every
    subscriber is called once, with the broker and its new health, for
    each broker whose check makes a transition (no recorded result, or a
    recorded health that differs from the new one) and is not called for
    the others; this holds whichever subscribers raise, and every broker
    is checked and its result recorded. *)
Theorem tick_notifies_on_transition m :
  NoDup (get_supported_brokers svc) ->
  let m' := (check_all_brokers_health_with recover svc now m).1 in
  let results := (check_all_brokers_health_with recover svc now m).2 in
  invoked m' =
    (invoked m ++ expected_calls recover svc now m (get_supported_brokers svc))%list /\
  (forall b, b ∈ get_supported_brokers svc ->
     health_checks m' !! b = Some (result_of recover svc now m b) /\
     results !! b = Some (result_of recover svc now m b)).
Proof.
  intros Hnd. cbv zeta. unfold check_all_brokers_health_with.
  destruct (tick_from m (get_supported_brokers svc) m ∅) as (Hi & Hin & _); done.
Qed.

(** C10: a forced check of one broker stores the fresh result for that
    broker and calls no subscriber, whatever the recorded health was. *)
Theorem forced_check_is_silent id m :
  id <> "" ->
  let m' := (force_health_check_with recover svc now (Some id) m).1 in
  let results := (force_health_check_with recover svc now (Some id) m).2 in
  let r := result_of recover svc now m id in
  health_checks m' = <[id := r]> (health_checks m) /\
  results = {[id := r]} /\
  invoked m' = invoked m /\
  error_log m' = error_log m.
Proof.
  intros Hid. cbv zeta. unfold force_health_check_with, result_of.
  rewrite bool_decide_eq_false_2 by done.
  destruct (check_keeps_registry (now id) id m) as (Hh & _ & _ & Hi & He).
  destruct (check_broker_health_with recover svc (now id) id m) as [m2 r].
  cbn in *. by rewrite Hh.
Qed.

End Tick.
End Checks.

(** ** The statements at work *)

(** The hypotheses of C7 can be met. *)
Lemma recovery_budget_witness :
  within_budget exhausted /\
  let m' := (check_broker_health_with _attempt_recovery desk 43200 "mt5" exhausted).1 in
  let r := (check_broker_health_with _attempt_recovery desk 43200 "mt5" exhausted).2 in
  within_budget m' /\
  max_recovery_attempts m' = max_recovery_attempts exhausted /\
  (health r = HEALTHY -> recovery_count m' "mt5" = 0) /\
  (forall c, get_broker_status desk "mt5" = Ok c -> status c = DISCONNECTED ->
     (health r = UNHEALTHY ->
        details r = [("recovery_attempts", DInt (recovery_count m' "mt5"))]) /\
     (max_recovery_attempts exhausted <= recovery_count exhausted "mt5" ->
        health r = UNHEALTHY /\ m' = exhausted /\
        details r = [("recovery_attempts", DInt (recovery_count exhausted "mt5"))])).
Proof.
  assert (H : within_budget exhausted).
  { intros b. unfold recovery_count, exhausted.
    cbn [recovery_attempts max_recovery_attempts].
    destruct (decide (b = "mt5")) as [->|Hne].
    - rewrite lookup_singleton_eq. cbn. lia.
    - rewrite lookup_singleton_ne by done. cbn. lia. }
  split; [exact H|].
  exact (recovery_budget _attempt_recovery desk 43200 "mt5" exhausted H).
Defined.

(** The hypotheses of C8 can be met. *)
Lemma tick_notifies_on_transition_witness :
  NoDup (get_supported_brokers desk) /\
  let m' := (check_all_brokers_health desk at_noon exhausted).1 in
  let results := (check_all_brokers_health desk at_noon exhausted).2 in
  invoked m' =
    (invoked exhausted
     ++ expected_calls _attempt_recovery desk at_noon exhausted
          (get_supported_brokers desk))%list /\
  (forall b, b ∈ get_supported_brokers desk ->
     health_checks m' !! b = Some (result_of _attempt_recovery desk at_noon exhausted b) /\
     results !! b = Some (result_of _attempt_recovery desk at_noon exhausted b)).
Proof.
  assert (H : NoDup (get_supported_brokers desk)) by compute_done.
  split; [exact H|].
  exact (tick_notifies_on_transition _attempt_recovery desk at_noon exhausted H).
Defined.

(** The hypotheses of C10 can be met. *)
Lemma forced_check_is_silent_witness :
  "mt5" <> "" /\
  let m' := (force_health_check desk at_noon (Some "mt5") exhausted).1 in
  let results := (force_health_check desk at_noon (Some "mt5") exhausted).2 in
  let r := result_of _attempt_recovery desk at_noon exhausted "mt5" in
  health_checks m' = <["mt5" := r]> (health_checks exhausted) /\
  results = {["mt5" := r]} /\
  invoked m' = invoked exhausted /\
  error_log m' = error_log exhausted.
Proof.
  assert (H : "mt5" <> "") by discriminate.
  split; [exact H|].
  exact (forced_check_is_silent _attempt_recovery desk at_noon "mt5" exhausted H).
Defined.

(** A first tick calls both subscribers for both brokers, although the
    first subscriber raises each time; a second tick, in which no health
    changes, calls none. *)
Example subscribers_hear_transitions_only :
  let first := (check_all_brokers_health desk at_noon exhausted).1 in
  let second := (check_all_brokers_health desk at_noon first).1 in
  invoked first =
    [(0%nat, "ibkr", HEALTHY); (1%nat, "ibkr", HEALTHY);
     (0%nat, "mt5", UNHEALTHY); (1%nat, "mt5", UNHEALTHY)] /\
  error_log first =
    ["Health callback error: subscriber is down";
     "Health callback error: subscriber is down"] /\
  invoked second = invoked first.
Proof. vm_compute. done. Qed.

(** The same change of health, found by a forced check of one broker,
    reaches no subscriber. *)
Example forced_check_hides_a_transition :
  let forced := (force_health_check desk at_noon (Some "mt5") exhausted).1 in
  health <$> get_broker_health "mt5" exhausted = None /\
  health <$> get_broker_health "mt5" forced = Some UNHEALTHY /\
  invoked forced = [].
Proof. vm_compute. done. Qed.

End HealthProps.

(* ===================================================================== *)
(** * Properties of the document parser *)
(* ===================================================================== *)

Module ParserProps.
Import Py ET FlexQueryService FlexNotions.

Lemma rename_frame old new d k :
  k <> old -> k <> new -> rename old new d !! k = d !! k.
Proof.
  intros Ho Hn. unfold rename. destruct (d !! old); [|done].
  by rewrite lookup_insert_ne, lookup_delete_ne.
Qed.

Lemma float_of_numeric key e s :
  numeric key e = true -> attrib e !! key = Some s ->
  exists f, float_ (VStr s) = Ok f.
Proof.
  unfold numeric. intros Hn Hs. rewrite Hs in Hn.
  apply bool_decide_eq_true in Hn as [f Hf].
  exists f. cbn. unfold float_of_str. by rewrite Hf.
Qed.

Lemma float_of_garbage key e :
  numeric key e = false ->
  exists s err, attrib e !! key = Some s /\ float_ (VStr s) = Raise err /\
                not_a_number err.
Proof.
  unfold numeric. destruct (attrib e !! key) as [s|]; [|done].
  intros Hn. apply bool_decide_eq_false in Hn.
  exists s. cbn. unfold float_of_str.
  destruct (float_of_chars (chars s)) as [f|] eqn:Hf.
  - destruct Hn. by exists f.
  - eexists. split; [done|]. split; [done|]. by exists s.
Qed.

(** A coercion that meets a number, or no field at all. *)
Lemma coerce_ok key e d :
  d !! key = VStr <$> attrib e !! key -> numeric key e = true ->
  exists d', coerce key d = Ok d' /\
    (forall k, k <> key -> d' !! k = d !! k) /\
    (forall v, d' !! key = Some v -> is_float v = true) /\
    (is_Some (attrib e !! key) -> exists f, d' !! key = Some (VFloat f)).
Proof.
  intros Hd Hn. unfold coerce. rewrite Hd.
  destruct (attrib e !! key) as [s|] eqn:Hs; cbn.
  - destruct (float_of_numeric key e s Hn Hs) as [f Hf]. cbn in Hf. rewrite Hf. cbn.
    eexists. split; [done|]. split; [|split].
    + intros k Hk. by rewrite lookup_insert_ne.
    + intros v. rewrite lookup_insert_eq. by intros [= <-].
    + intros _. exists f. by rewrite lookup_insert_eq.
  - exists d. split; [done|]. split; [done|]. split.
    + intros v. by rewrite Hd.
    + by intros [? ?].
Qed.

Lemma coerce_rename_ok old new e d :
  d !! old = VStr <$> attrib e !! old -> numeric old e = true ->
  exists d', coerce_rename old new d = Ok d' /\
    (forall k, k <> old -> k <> new -> d' !! k = d !! k) /\
    (is_Some (attrib e !! old) -> exists f, d' !! new = Some (VFloat f)).
Proof.
  intros Hd Hn. unfold coerce_rename. rewrite Hd.
  destruct (attrib e !! old) as [s|] eqn:Hs; cbn.
  - destruct (float_of_numeric old e s Hn Hs) as [f Hf]. cbn in Hf. rewrite Hf. cbn.
    eexists. split; [done|]. split.
    + intros k Ho Hk. by rewrite lookup_insert_ne, lookup_delete_ne.
    + intros _. exists f. by rewrite lookup_insert_eq.
  - exists d. split; [done|]. split; [done|]. by intros [? ?].
Qed.

(** A coercion that meets text that is not a number. *)
Lemma coerce_fails key e d :
  d !! key = VStr <$> attrib e !! key -> numeric key e = false ->
  exists err, coerce key d = Raise err /\ not_a_number err.
Proof.
  intros Hd Hn. destruct (float_of_garbage key e Hn) as (s & err & Hs & Hf & He).
  exists err. unfold coerce. rewrite Hd, Hs. cbn in *. by rewrite Hf.
Qed.

Lemma coerce_rename_fails old new e d :
  d !! old = VStr <$> attrib e !! old -> numeric old e = false ->
  exists err, coerce_rename old new d = Raise err /\ not_a_number err.
Proof.
  intros Hd Hn. destruct (float_of_garbage old e Hn) as (s & err & Hs & Hf & He).
  exists err. unfold coerce_rename. rewrite Hd, Hs. cbn in *. by rewrite Hf.
Qed.

(** The dictionary a trade parser starts from still holds the source
    text of every numeric attribute. *)
Lemma trade_source e k :
  k ∈ trade_numbers ->
  rename "settleDate" "settle_date"
         (rename "tradeDate" "trade_date" (dict_of e)) !! k
  = VStr <$> attrib e !! k.
Proof.
  intros Hk. unfold trade_numbers in Hk.
  repeat (apply elem_of_cons in Hk as [->|Hk]);
    [..|by apply elem_of_nil in Hk];
    rewrite !rename_frame by done; unfold dict_of; by rewrite lookup_fmap.
Qed.

Create HintDb keys.

#[local] Hint Extern 1 (_ ∈ trade_numbers) =>
  unfold trade_numbers; repeat constructor : keys.

(** [parse_trade] returns a record when every numeric attribute parses
    and raises the error of [float] otherwise. *)
Lemma parse_trade_spec e :
  if all_numeric trade_numbers e
  then exists r, parse_trade e = Ok r /\ trade_record_of e r
  else exists err, parse_trade e = Raise err /\ not_a_number err.
Proof.
  unfold all_numeric, parse_trade. cbn [forallb trade_numbers].
  set (d2 := rename _ _ (rename _ _ _)).
  assert (Hsrc : forall k, k ∈ trade_numbers -> d2 !! k = VStr <$> attrib e !! k)
    by (intros; by apply trade_source).
  destruct (numeric "quantity" e) eqn:Hq; cbn [andb].
  2:{ destruct (coerce_fails "quantity" e d2) as (err & -> & He);
        [auto with keys|done|by exists err]. }
  destruct (coerce_ok "quantity" e d2) as (d3 & -> & F3 & Q3 & Q3');
    [auto with keys|done|]. cbn [mbind Exc_bind].
  assert (H3 : forall k, k ∈ trade_numbers -> k <> "quantity" ->
                         d3 !! k = VStr <$> attrib e !! k)
    by (intros; rewrite F3 by done; auto).
  destruct (numeric "price" e) eqn:Hp; cbn [andb].
  2:{ destruct (coerce_fails "price" e d3) as (err & -> & He);
        [apply H3; [auto with keys|done]|done|by exists err]. }
  destruct (coerce_ok "price" e d3) as (d4 & -> & F4 & P4 & P4');
    [apply H3; [auto with keys|done]|done|]. cbn [mbind Exc_bind].
  assert (H4 : forall k, k ∈ trade_numbers -> k <> "quantity" -> k <> "price" ->
                         d4 !! k = VStr <$> attrib e !! k)
    by (intros; rewrite F4 by done; auto).
  destruct (numeric "proceeds" e) eqn:Hpr; cbn [andb].
  2:{ destruct (coerce_fails "proceeds" e d4) as (err & -> & He);
        [apply H4; [auto with keys|done..]|done|by exists err]. }
  destruct (coerce_ok "proceeds" e d4) as (d5 & -> & F5 & _ & _);
    [apply H4; [auto with keys|done..]|done|]. cbn [mbind Exc_bind].
  assert (H5 : forall k, k ∈ trade_numbers -> k <> "quantity" -> k <> "price" ->
                         k <> "proceeds" -> d5 !! k = VStr <$> attrib e !! k)
    by (intros; rewrite F5 by done; auto).
  destruct (numeric "commission" e) eqn:Hc; cbn [andb].
  2:{ destruct (coerce_fails "commission" e d5) as (err & -> & He);
        [apply H5; [auto with keys|done..]|done|by exists err]. }
  destruct (coerce_ok "commission" e d5) as (d6 & -> & F6 & _ & _);
    [apply H5; [auto with keys|done..]|done|]. cbn [mbind Exc_bind].
  assert (H6 : d6 !! "realizedPL" = VStr <$> attrib e !! "realizedPL").
  { rewrite F6; [|done]. apply H5; [auto with keys|done..]. }
  destruct (numeric "realizedPL" e) eqn:Hr; cbn [andb].
  2:{ destruct (coerce_rename_fails "realizedPL" "realized_pnl" e d6)
        as (err & -> & He); [done|done|by exists err]. }
  destruct (coerce_rename_ok "realizedPL" "realized_pnl" e d6)
    as (r & -> & F7 & R7); [done|done|].
  exists r. split; [done|].
  assert (Hrq : r !! "quantity" = d3 !! "quantity").
  { rewrite F7, F6, F5, F4; done. }
  assert (Hrp : r !! "price" = d4 !! "price").
  { rewrite F7, F6, F5; done. }
  unfold trade_record_of. rewrite Hrq, Hrp. auto.
Qed.

Lemma parse_cash_spec e :
  if all_numeric cash_numbers e
  then exists r, parse_cash_transaction e = Ok r
  else exists err, parse_cash_transaction e = Raise err /\ not_a_number err.
Proof.
  unfold all_numeric, parse_cash_transaction. cbn [forallb cash_numbers].
  assert (Hsrc : dict_of e !! "amount" = VStr <$> attrib e !! "amount")
    by (unfold dict_of; by rewrite lookup_fmap).
  destruct (numeric "amount" e) eqn:Ha; cbn [andb].
  - destruct (coerce_ok "amount" e (dict_of e)) as (d & -> & _); [done..|].
    cbn. eauto.
  - destruct (coerce_fails "amount" e (dict_of e)) as (err & -> & He); [done..|].
    by exists err.
Qed.

(** A loop over elements returns one record for each element when the
    body succeeds on all of them, and raises the error of the first
    element on which the body fails. *)
Lemma for_each_spec {A B : Type} (body : A -> Exc B) (ok : A -> bool)
    (Q : A -> B -> Prop) (P : PyExc -> Prop) (l : list A) :
  (forall x, if ok x then exists y, body x = Ok y /\ Q x y
             else exists err, body x = Raise err /\ P err) ->
  if forallb ok l
  then exists ys, for_each body l = Ok ys /\ Forall2 Q l ys
  else exists err, for_each body l = Raise err /\ P err.
Proof.
  intros Hbody. induction l as [|x l IH]; cbn.
  - exists []. by split; [|constructor].
  - specialize (Hbody x). destruct (ok x); cbn.
    + destruct Hbody as (y & -> & Hy). cbn.
      destruct (forallb ok l).
      * destruct IH as (ys & -> & Hys). cbn. exists (y :: ys).
        by split; [|constructor].
      * destruct IH as (err & -> & He). cbn. by exists err.
    + destruct Hbody as (err & -> & He). cbn. by exists err.
Qed.

Lemma Forall2_same_length {A B : Type} (Q : A -> B -> Prop) l ys :
  Forall2 Q l ys -> length ys = length l.
Proof. intros H. symmetry. by eapply Forall2_length. Qed.

Lemma parse_trades_spec root :
  if forallb (all_numeric trade_numbers) (findall "Trade" root)
  then exists rs, _parse_trade_records root = Ok rs /\
                  Forall2 trade_record_of (findall "Trade" root) rs
  else exists err, _parse_trade_records root = Raise err /\ not_a_number err.
Proof. apply for_each_spec, parse_trade_spec. Qed.

(** *** What the fields of a record hold *)

Lemma bind_Ok {A B : Type} (m : Exc A) (k : A -> Exc B) (r : B) :
  (x ← m; k x) = Ok r -> exists x, m = Ok x /\ k x = Ok r.
Proof. destruct m as [x|e]; [|done]. intros H. by exists x. Qed.

Lemma float_of_text s f :
  float_ (VStr s) = Ok f -> float_of_chars (chars s) = Some f.
Proof.
  cbn. unfold float_of_str. destruct (float_of_chars (chars s)); [|done].
  by intros [= ->].
Qed.

Lemma dict_of_lookup e k : dict_of e !! k = VStr <$> attrib e !! k.
Proof. unfold dict_of. by rewrite lookup_fmap. Qed.



(** A coercion that returned: the key holds the number that its old
    value denotes, the other keys are as before. *)
Lemma coerce_Ok key d d' :
  coerce key d = Ok d' ->
  (forall k, k <> key -> d' !! k = d !! k) /\
  match d !! key with
  | Some v => exists f, float_ v = Ok f /\ d' !! key = Some (VFloat f)
  | None => d' !! key = None
  end.
Proof.
  unfold coerce. destruct (d !! key) as [v|] eqn:Hv.
  - intros (f & Hf & [= <-])%bind_Ok. split.
    + intros k Hk. by rewrite lookup_insert_ne.
    + exists f. by rewrite lookup_insert_eq.
  - by intros [= <-].
Qed.

Lemma coerce_rename_Ok old new d d' :
  old <> new ->
  coerce_rename old new d = Ok d' ->
  (forall k, k <> old -> k <> new -> d' !! k = d !! k) /\
  d' !! old = None /\
  match d !! old with
  | Some v => exists f, float_ v = Ok f /\ d' !! new = Some (VFloat f)
  | None => d' !! new = d !! new
  end.
Proof.
  intros Hne. unfold coerce_rename. destruct (d !! old) as [v|] eqn:Hv.
  - intros (f & Hf & [= <-])%bind_Ok. split; [|split].
    + intros k Ho Hn. by rewrite lookup_insert_ne, lookup_delete_ne.
    + by rewrite lookup_insert_ne, lookup_delete_eq.
    + exists f. by rewrite lookup_insert_eq.
  - by intros [= <-].
Qed.

(** The number under a key whose source is still the text of an
    attribute that the element has. *)
Lemma number_of_attribute e a s (v : option Value) (otherwise : Prop) :
  attrib e !! a = Some s ->
  match VStr <$> attrib e !! a with
  | Some w => exists f, float_ w = Ok f /\ v = Some (VFloat f)
  | None => otherwise
  end ->
  exists f, float_of_chars (chars s) = Some f /\ v = Some (VFloat f).
Proof.
  intros ->. cbn [fmap option_fmap option_map]. intros (f & Hf & ->).
  exists f. split; [|done]. by apply float_of_text.
Qed.

(** The chain of [parse_trade], step by step. *)
Lemma parse_trade_steps e r :
  parse_trade e = Ok r ->
  exists d3 d4 d5 d6,
    let d2 := rename "settleDate" "settle_date"
                     (rename "tradeDate" "trade_date" (dict_of e)) in
    coerce "quantity" d2 = Ok d3 /\ coerce "price" d3 = Ok d4 /\
    coerce "proceeds" d4 = Ok d5 /\ coerce "commission" d5 = Ok d6 /\
    coerce_rename "realizedPL" "realized_pnl" d6 = Ok r.
Proof.
  unfold parse_trade.
  intros (d3 & H3 & (d4 & H4 & (d5 & H5 & (d6 & H6 & Hr)%bind_Ok)%bind_Ok)%bind_Ok)%bind_Ok.
  by exists d3, d4, d5, d6.
Qed.

Lemma parse_trade_coerced e r :
  parse_trade e = Ok r -> coerced trade_fields e r.
Proof.
  intros (d3 & d4 & d5 & d6 & H3 & H4 & H5 & H6 & Hr)%parse_trade_steps.
  cbv zeta in *.
  apply coerce_Ok in H3 as [F3 V3], H4 as [F4 V4], H5 as [F5 V5], H6 as [F6 V6].
  apply coerce_rename_Ok in Hr as (Fr & _ & Vr); [|done].
  intros a k s Hin Hs. unfold trade_fields in Hin.
  repeat (apply elem_of_cons in Hin as [[= -> ->]|Hin]); [..|by apply elem_of_nil in Hin];
    (eapply (number_of_attribute e); [exact Hs|]); rewrite <- dict_of_lookup.
  - rewrite Fr, F6, F5, F4 by done.
    rewrite !rename_frame in V3 by done. exact V3.
  - rewrite Fr, F6, F5 by done.
    rewrite F3, !rename_frame in V4 by done. exact V4.
  - rewrite Fr, F6 by done.
    rewrite F4, F3, !rename_frame in V5 by done. exact V5.
  - rewrite Fr by done.
    rewrite F5, F4, F3, !rename_frame in V6 by done. exact V6.
  - rewrite F6, F5, F4, F3, !rename_frame in Vr by done. exact Vr.
Qed.

Lemma parse_cash_coerced e r :
  parse_cash_transaction e = Ok r -> coerced cash_fields e r.
Proof.
  unfold parse_cash_transaction. intros (d & Hd & [= <-])%bind_Ok.
  apply coerce_Ok in Hd as [_ V].
  intros a k s Hin Hs. unfold cash_fields in Hin.
  apply list_elem_of_singleton in Hin as [= -> ->].
  eapply (number_of_attribute e); [exact Hs|]. rewrite <- dict_of_lookup.
  by rewrite rename_frame.
Qed.

Lemma parse_position_coerced e r :
  parse_position e = Ok r -> coerced position_fields e r.
Proof.
  unfold parse_position.
  intros (d2 & H2 & (d3 & H3 & (d4 & H4 & Hr)%bind_Ok)%bind_Ok)%bind_Ok.
  apply coerce_Ok in H2 as [F2 V2].
  apply coerce_rename_Ok in H3 as (F3 & _ & V3); [|done].
  apply coerce_rename_Ok in H4 as (F4 & _ & V4); [|done].
  apply coerce_rename_Ok in Hr as (Fr & _ & Vr); [|done].
  intros a k s Hin Hs. unfold position_fields in Hin.
  repeat (apply elem_of_cons in Hin as [[= -> ->]|Hin]); [..|by apply elem_of_nil in Hin];
    (eapply (number_of_attribute e); [exact Hs|]); rewrite <- dict_of_lookup.
  - rewrite Fr, F4, F3 by done. exact V2.
  - rewrite Fr, F4 by done. rewrite F2 in V3 by done. exact V3.
  - rewrite Fr by done. rewrite F3, F2 in V4 by done. exact V4.
  - rewrite F4, F3, F2 in Vr by done. exact Vr.
Qed.

Lemma parse_dividend_coerced e r :
  parse_dividend e = Ok r -> coerced dividend_fields e r.
Proof.
  unfold parse_dividend. intros (d & Hd & [= <-])%bind_Ok.
  apply coerce_rename_Ok in Hd as (_ & _ & V); [|done].
  intros a k s Hin Hs. unfold dividend_fields in Hin.
  apply list_elem_of_singleton in Hin as [= -> ->].
  eapply (number_of_attribute e); [exact Hs|]. rewrite <- dict_of_lookup.
  destruct (d !! "date"); [by rewrite lookup_insert_ne|done].
Qed.

(** *** The position and dividend parsers return or raise *)

Lemma parse_position_spec e :
  if all_numeric (map fst position_fields) e
  then exists r, parse_position e = Ok r
  else exists err, parse_position e = Raise err /\ not_a_number err.
Proof.
  unfold all_numeric, parse_position. cbn [forallb map fst position_fields].
  set (d1 := dict_of e).
  assert (H1 : forall k, d1 !! k = VStr <$> attrib e !! k)
    by (intros; apply dict_of_lookup).
  destruct (numeric "position" e) eqn:Hp; cbn [andb].
  2:{ destruct (coerce_fails "position" e d1) as (err & -> & He); [done..|].
      by exists err. }
  destruct (coerce_ok "position" e d1) as (d2 & -> & F2 & _); [done..|].
  cbn [mbind Exc_bind].
  destruct (numeric "markPrice" e) eqn:Hm; cbn [andb].
  2:{ destruct (coerce_rename_fails "markPrice" "mark_price" e d2) as (err & -> & He);
        [by rewrite F2|done|by exists err]. }
  destruct (coerce_rename_ok "markPrice" "mark_price" e d2) as (d3 & -> & F3 & _);
    [by rewrite F2|done|].
  cbn [mbind Exc_bind].
  destruct (numeric "positionValue" e) eqn:Hv; cbn [andb].
  2:{ destruct (coerce_rename_fails "positionValue" "position_value" e d3)
        as (err & -> & He); [by rewrite F3, F2|done|by exists err]. }
  destruct (coerce_rename_ok "positionValue" "position_value" e d3) as (d4 & -> & F4 & _);
    [by rewrite F3, F2|done|].
  cbn [mbind Exc_bind].
  destruct (numeric "unrealizedPL" e) eqn:Hu; cbn [andb].
  2:{ destruct (coerce_rename_fails "unrealizedPL" "unrealized_pnl" e d4)
        as (err & -> & He); [by rewrite F4, F3, F2|done|by exists err]. }
  destruct (coerce_rename_ok "unrealizedPL" "unrealized_pnl" e d4) as (d5 & -> & _);
    [by rewrite F4, F3, F2|done|].
  by exists d5.
Qed.

Lemma parse_dividend_spec e :
  if all_numeric (map fst dividend_fields) e
  then exists r, parse_dividend e = Ok r
  else exists err, parse_dividend e = Raise err /\ not_a_number err.
Proof.
  unfold all_numeric, parse_dividend. cbn [forallb map fst dividend_fields].
  destruct (numeric "totalCash" e) eqn:Ht; cbn [andb].
  - destruct (coerce_rename_ok "totalCash" "amount" e (dict_of e)) as (d & -> & _);
      [apply dict_of_lookup|done|]. cbn. eauto.
  - destruct (coerce_rename_fails "totalCash" "amount" e (dict_of e)) as (err & -> & He);
      [apply dict_of_lookup|done|]. by exists err.
Qed.

(** *** All the records or none *)

Lemma parse_trade_returns_or_raises e :
  if all_numeric (map fst trade_fields) e
  then exists r, parse_trade e = Ok r
  else exists err, parse_trade e = Raise err /\ not_a_number err.
Proof.
  pose proof (parse_trade_spec e) as H.
  change (map fst trade_fields) with trade_numbers.
  destruct (all_numeric trade_numbers e); [|done].
  destruct H as (r & Hr & _). by exists r.
Qed.

(** A parser whose loop body returns a record with the numbers in it
    when the numeric attributes of the element parse, and raises the
    error of [float] otherwise. *)
Lemma records_all_or_nothing (body : Element -> Exc (gmap string Value))
    (fields : list (string * string)) (elements : list Element) :
  (forall e, if all_numeric (map fst fields) e then exists r, body e = Ok r
             else exists err, body e = Raise err /\ not_a_number err) ->
  (forall e r, body e = Ok r -> coerced fields e r) ->
  if forallb (all_numeric (map fst fields)) elements
  then exists rs, for_each body elements = Ok rs /\
                  Forall2 (coerced fields) elements rs
  else exists err, for_each body elements = Raise err /\ not_a_number err.
Proof.
  intros Hbody Hcoerced.
  apply for_each_spec. intros e. specialize (Hbody e).
  destruct (all_numeric (map fst fields) e); [|done].
  destruct Hbody as [r Hr]. exists r. split; [done|]. by apply Hcoerced.
Qed.

Lemma data_all_or_nothing label fields elements reference_code now
    (parsed : Exc (list (gmap string Value))) :
  (if forallb (all_numeric (map fst fields)) elements
   then exists rs, parsed = Ok rs /\ Forall2 (coerced fields) elements rs
   else exists err, parsed = Raise err /\ not_a_number err) ->
  all_or_nothing label fields elements reference_code now
    ('(data_type, records) ← (r ← parsed; mret (label, r));
     mret (mkData reference_code data_type records (Z.of_nat (length records)) now)).
Proof.
  unfold all_or_nothing. destruct (forallb _ _).
  - intros (rs & -> & Hrs). exists rs. done.
  - intros (err & -> & Herr). exists err. done.
Qed.

(** C2, amended: for every document that contains a recognised record
    container (Trade, CashTransaction, OpenPosition or
    ChangeInDividendAccrual elements, the first of these kinds that
    occurs deciding where the records come from), the parser returns
    the full record set, one record for each element of that kind and
    in it, under its key, the number that each numeric attribute of the
    element denotes, when every numeric attribute present parses as a
    number; when one of them does not, the coercion is not skipped:
    [float] raises [ValueError], no record set is returned and the
    error reaches the caller. *)
Theorem unparseable_number_aborts_parse root reference_code now name label fields :
  container_of root = Some (name, label, fields) ->
  all_or_nothing label fields (findall name root) reference_code now
                 (_parse_flex_query_xml root reference_code now).
Proof.
  unfold container_of, containers, _parse_flex_query_xml, find.
  cbn [List.find fst].
  destruct (findall "Trade" root) as [|t ts] eqn:Ht; cbn [head].
  2:{ rewrite bool_decide_eq_true_2 by done. intros [= <- <- <-].
      apply data_all_or_nothing. rewrite Ht, <- Ht.
      apply (records_all_or_nothing parse_trade trade_fields);
        [apply parse_trade_returns_or_raises|apply parse_trade_coerced]. }
  rewrite bool_decide_eq_false_2 by (intros H; by apply H).
  destruct (findall "CashTransaction" root) as [|c cs] eqn:Hc; cbn [head].
  2:{ rewrite bool_decide_eq_true_2 by done. intros [= <- <- <-].
      apply data_all_or_nothing. rewrite Hc, <- Hc.
      apply (records_all_or_nothing parse_cash_transaction cash_fields);
        [apply parse_cash_spec|apply parse_cash_coerced]. }
  rewrite bool_decide_eq_false_2 by (intros H; by apply H).
  destruct (findall "OpenPosition" root) as [|p ps] eqn:Hp; cbn [head].
  2:{ rewrite bool_decide_eq_true_2 by done. intros [= <- <- <-].
      apply data_all_or_nothing. rewrite Hp, <- Hp.
      apply (records_all_or_nothing parse_position position_fields);
        [apply parse_position_spec|apply parse_position_coerced]. }
  rewrite bool_decide_eq_false_2 by (intros H; by apply H).
  destruct (findall "ChangeInDividendAccrual" root) as [|v vs] eqn:Hv; cbn [head].
  2:{ rewrite bool_decide_eq_true_2 by done. intros [= <- <- <-].
      apply data_all_or_nothing. rewrite Hv, <- Hv.
      apply (records_all_or_nothing parse_dividend dividend_fields);
        [apply parse_dividend_spec|apply parse_dividend_coerced]. }
  rewrite bool_decide_eq_false_2 by (intros H; by apply H).
  done.
Qed.

(** The hypothesis of C2 can be met. *)
Lemma unparseable_number_aborts_parse_witness :
  container_of bad_quantity = Some ("Trade", "trades", trade_fields) /\
  all_or_nothing "trades" trade_fields (findall "Trade" bad_quantity) "REF1" 0
                 (_parse_flex_query_xml bad_quantity "REF1" 0).
Proof.
  assert (H1 : container_of bad_quantity = Some ("Trade", "trades", trade_fields))
    by (vm_compute; reflexivity).
  split; [exact H1|].
  exact (unparseable_number_aborts_parse bad_quantity "REF1" 0
           "Trade" "trades" trade_fields H1).
Defined.

(** C2, as stated, fails: a quantity that is not a number aborts the
    whole parse with the error of [float]. *)
Lemma unparseable_quantity_is_not_skipped :
  findall "Trade" bad_quantity <> [] /\
  (exists e, e ∈ findall "Trade" bad_quantity /\ attrib e !! "quantity" = Some "n/a") /\
  float_of_chars (chars "n/a") = None /\
  _parse_flex_query_xml bad_quantity "REF1" 0
  = Raise (mkExc ValueError "could not convert string to float: 'n/a'").
Proof.
  split; [vm_compute; discriminate|].
  split; [|split; vm_compute; reflexivity].
  exists (trade_element "n/a" "190.5" "325"). split; [|reflexivity].
  vm_compute. right. left.
Qed.

(** The other containers are parsed in the same way: a position whose
    numbers parse comes back with the numbers under the record keys. *)
Example position_is_coerced :
  let root :=
    statement [Elem "OpenPositions" ∅ None
                 [Elem "OpenPosition"
                       {[ "symbol" := "AAPL"; "position" := "100";
                          "markPrice" := "187.25" ]} None []]] in
  exists r,
    _parse_flex_query_xml root "REF1" 0 = Ok (mkData "REF1" "positions" [r] 1 0) /\
    r !! "position" = Some (VFloat 100) /\
    r !! "mark_price" = Some (VFloat 187.25) /\
    r !! "markPrice" = None /\
    r !! "symbol" = Some (VStr "AAPL").
Proof.
  eexists. split; [vm_compute; reflexivity|].
  repeat split; vm_compute; reflexivity.
Qed.

(** The error leaves [get_flex_query_data] too, called with its default
    of eight attempts, and the job is marked [FAILED]. *)
Example parse_error_reaches_the_caller :
  let remote : Remote :=
    fun _ => mkReply 250000 (Response 200 "<FlexQueryResponse/>" (Ok bad_quantity)) in
  exists w',
    get_flex_query_data remote "REF1" "token" 8 fresh
    = (w', Raise (mkExc ValueError "could not convert string to float: 'n/a'")) /\
    requests w' = 1%nat /\
    get_query_status "REF1" w'
    = Some (failed_with "could not convert string to float: 'n/a'" job).
Proof. eexists. split; [vm_compute; reflexivity|]. split; vm_compute; reflexivity. Qed.

(** C5, amended: a document with exactly three Trade elements below
    its root, whose numeric attributes parse, yields exactly 3 records
    with [data_type] equal to ["trades"]; in each record [quantity] and
    [price] are floats where the element has them, and [realized_pnl] is
    a float where the element has [realizedPL]. *)
Theorem three_trades_parse root reference_code now :
  length (findall "Trade" root) = 3%nat ->
  forallb (all_numeric trade_numbers) (findall "Trade" root) = true ->
  exists d,
    _parse_flex_query_xml root reference_code now = Ok d /\
    data_type d = "trades" /\
    total_records d = 3 /\
    length (records d) = 3%nat /\
    Forall2 trade_record_of (findall "Trade" root) (records d).
Proof.
  intros H3 Hnum. unfold _parse_flex_query_xml, find.
  pose proof (parse_trades_spec root) as H. rewrite Hnum in H.
  destruct H as (rs & -> & Hrs).
  destruct (findall "Trade" root) as [|t ts] eqn:Ht; [done|]. cbn.
  eexists. split; [done|]. cbn.
  apply Forall2_same_length in Hrs as Hlen. cbn in Hlen, H3.
  rewrite Hlen. repeat split; try done. lia.
Qed.

(** The hypotheses of C5 can be met. *)
Lemma three_trades_parse_witness :
  length (findall "Trade" three_trades) = 3%nat /\
  forallb (all_numeric trade_numbers) (findall "Trade" three_trades) = true /\
  exists d,
    _parse_flex_query_xml three_trades "REF1" 0 = Ok d /\
    data_type d = "trades" /\
    total_records d = 3 /\
    length (records d) = 3%nat /\
    Forall2 trade_record_of (findall "Trade" three_trades) (records d).
Proof.
  assert (H1 : length (findall "Trade" three_trades) = 3%nat) by reflexivity.
  assert (H2 : forallb (all_numeric trade_numbers) (findall "Trade" three_trades) = true)
    by (vm_compute; reflexivity).
  split; [exact H1|]. split; [exact H2|].
  exact (three_trades_parse three_trades "REF1" 0 H1 H2).
Defined.

(** C5, as stated, fails: the [data_type] of a trade document is
    ["trades"], not ["trade"]. *)
Lemma data_type_is_trades :
  length (findall "Trade" three_trades) = 3%nat /\
  exists d,
    _parse_flex_query_xml three_trades "REF1" 0 = Ok d /\
    length (records d) = 3%nat /\
    data_type d = "trades" /\
    data_type d <> "trade".
Proof.
  split; [reflexivity|]. eexists. split; [vm_compute; reflexivity|].
  cbn. split; [reflexivity|]. split; [reflexivity|discriminate].
Qed.

End ParserProps.

(* ===================================================================== *)
(** * Properties of the metrics calculator *)
(* ===================================================================== *)

Module MetricsProps.
Import Py ET FlexQueryService FlexNotions.

Lemma get_float_absent key trade :
  trade !! key = None -> get_float key trade = Ok 0%float.
Proof. unfold get_float. by intros ->. Qed.

Lemma sorted_pair a b :
  comparable (sort_key a) (sort_key b) ->
  sorted [a; b] = Ok [a; b] \/ sorted [a; b] = Ok [b; a].
Proof.
  unfold comparable, sorted. cbn [fold_left place mbind Exc_bind].
  destruct (sort_key a) as [s|x], (sort_key b) as [t|y]; try done; intros _; cbn.
  - destruct (String.ltb t s); cbn; auto.
  - destruct (PrimFloat.ltb y x); cbn; auto.
Qed.

(** C6: for the two trades, one with realized P&L 100 and one with -40,
    without commission and fee fields, in either order, the metrics are
    computed and [win_rate] is 0.5, [profit_factor] is 2.5 and [net_pnl]
    is 60.  The trade dates must be comparable, as they are for records
    that come from the parser. *)
Theorem two_trade_metrics (w l : gmap string Value) (start_date end_date : Z)
    (trades : list (gmap string Value)) :
  get_float "realized_pnl" w = Ok 100%float ->
  get_float "realized_pnl" l = Ok (-40)%float ->
  no_costs w -> no_costs l ->
  comparable (sort_key w) (sort_key l) ->
  trades = [w; l] \/ trades = [l; w] ->
  exists m,
    calculate_performance_metrics trades start_date end_date = Ok m /\
    win_rate m = 0.5%float /\
    profit_factor m = 2.5%float /\
    net_pnl m = 60%float.
Proof.
  intros Hw Hl [Hwc Hwf] [Hlc Hlf] Hcmp Horder.
  apply get_float_absent in Hwc, Hwf, Hlc, Hlf.
  assert (Hcmp' : comparable (sort_key l) (sort_key w)) by done.
  destruct Horder as [-> | ->].
  - destruct (sorted_pair w l Hcmp) as [Hs|Hs];
      unfold calculate_performance_metrics, sum_of;
      cbn [sum_from select extreme extreme_from];
      rewrite Hs, Hw, Hl, Hwc, Hwf, Hlc, Hlf; cbn; rewrite Hw, Hl; cbn;
      rewrite ?Hw, ?Hl; cbn; rewrite ?Hw, ?Hl; cbn;
      (eexists; split; [reflexivity|]); cbn; repeat split; reflexivity.
  - destruct (sorted_pair l w Hcmp') as [Hs|Hs];
      unfold calculate_performance_metrics, sum_of;
      cbn [sum_from select extreme extreme_from];
      rewrite Hs, Hw, Hl, Hwc, Hwf, Hlc, Hlf; cbn; rewrite Hw, Hl; cbn;
      rewrite ?Hw, ?Hl; cbn; rewrite ?Hw, ?Hl; cbn;
      (eexists; split; [reflexivity|]); cbn; repeat split; reflexivity.
Qed.

(** The hypotheses of C6 can be met. *)
Lemma two_trade_metrics_witness :
  get_float "realized_pnl" winner = Ok 100%float /\
  get_float "realized_pnl" loser = Ok (-40)%float /\
  no_costs winner /\ no_costs loser /\
  comparable (sort_key winner) (sort_key loser) /\
  ([winner; loser] = [winner; loser] \/ [winner; loser] = [loser; winner]) /\
  exists m,
    calculate_performance_metrics [winner; loser] 0 86400 = Ok m /\
    win_rate m = 0.5%float /\
    profit_factor m = 2.5%float /\
    net_pnl m = 60%float.
Proof.
  assert (H1 : get_float "realized_pnl" winner = Ok 100%float) by reflexivity.
  assert (H2 : get_float "realized_pnl" loser = Ok (-40)%float) by reflexivity.
  assert (H3 : no_costs winner) by (split; reflexivity).
  assert (H4 : no_costs loser) by (split; reflexivity).
  assert (H5 : comparable (sort_key winner) (sort_key loser)) by reflexivity.
  assert (H6 : [winner; loser] = [winner; loser] \/ [winner; loser] = [loser; winner])
    by (left; reflexivity).
  repeat (split; [assumption|]).
  exact (two_trade_metrics winner loser 0 86400 [winner; loser] H1 H2 H3 H4 H5 H6).
Defined.

End MetricsProps.

(* ===================================================================== *)
(** * Properties of the completion waiter *)
(* ===================================================================== *)

Module WaiterProps.
Import Py ET FlexQueryService FlexNotions.

(** ** One poll: [get_flex_query_data] with [max_retries = 1] *)

Lemma last_attempt_does_not_retry reply reference_code now :
  (exists d, attempt_body reply reference_code 1 0 now = Return_ d) \/
  (exists e, attempt_body reply reference_code 1 0 now = Except e).
Proof.
  unfold attempt_body. destruct (payload reply) as [e|st body [root|e]]; eauto.
  - destruct (negb (st =? 200)); [rewrite andb_false_r; eauto|].
    destruct (remote_error root); [rewrite andb_false_r; eauto|].
    destruct (_parse_flex_query_xml _ _ _); eauto.
  - destruct (negb (st =? 200)); [rewrite andb_false_r|]; eauto.
Qed.

Lemma single_attempt remote reference_code token w :
  get_flex_query_data remote reference_code token 1 w =
  let reply := remote (requests w) in
  let w1 := request reply w in
  match attempt_body reply reference_code 1 0 (clock w1) with
  | Retry wait_time => (sleep wait_time w1, Ok None)
  | Return_ flex_data => (mark_completed reference_code w1, Ok (Some flex_data))
  | Except e => (mark_failed reference_code (str e) w1, Raise e)
  end.
Proof. reflexivity. Qed.

Lemma poll_once remote reference_code token w :
  let w1 := request (remote (requests w)) w in
  (exists d, get_flex_query_data remote reference_code token 1 w
             = (mark_completed reference_code w1, Ok (Some d))) \/
  (exists e, get_flex_query_data remote reference_code token 1 w
             = (mark_failed reference_code (str e) w1, Raise e)).
Proof.
  cbv zeta. rewrite single_attempt. cbv zeta.
  destruct (last_attempt_does_not_retry (remote (requests w)) reference_code
              (clock (request (remote (requests w)) w))) as [[d ->]|[e ->]].
  - left. by exists d.
  - right. by exists e.
Qed.

Lemma poll_not_ready remote reference_code token w :
  not_ready_reply (remote (requests w)) = true ->
  exists text,
    any_in not_ready_phrases (lower text) = true /\
    get_flex_query_data remote reference_code token 1 w
    = (mark_failed reference_code text (request (remote (requests w)) w),
       Raise (mkExc Exception text)).
Proof.
  rewrite single_attempt. cbv zeta. unfold not_ready_reply, attempt_body.
  destruct (payload (remote (requests w))) as [e|st body [root|e]]; try done.
  intros [Hst Hphrase]%andb_true_iff. rewrite Hst. cbn [negb].
  destruct (remote_error root) as [text|]; [|done].
  exists text. split; [done|]. by rewrite andb_false_r.
Qed.

(** ** The loop *)

Section Loop.
Variable remote : Remote.
Variables reference_code token : string.
Variables max_wait_time check_interval start_time : Z.

Lemma backoff_cases attempt :
  (attempt < 6 /\ backoff check_interval attempt = check_interval) \/
  (6 <= attempt /\ (backoff check_interval attempt = 15 \/
                    backoff check_interval attempt = 20)).
Proof.
  unfold backoff. destruct (attempt <? 6) eqn:H6; [left; lia|right].
  destruct (attempt <? 18); lia.
Qed.

Lemma polls_left_decreases attempt t t' :
  t - start_time < microseconds max_wait_time ->
  t + microseconds (Z.max 0 (backoff check_interval attempt)) <= t' ->
  (polls_left max_wait_time (attempt + 1) (t' - start_time) < polls_left max_wait_time attempt (t - start_time))%nat.
Proof.
  unfold polls_left, microseconds. intros Hin Hlate.
  set (left_before := (Z.max 0 (max_wait_time * 1000000 - (t - start_time)) + 14999999)
                      / 15000000).
  set (left_after := (Z.max 0 (max_wait_time * 1000000 - (t' - start_time)) + 14999999)
                     / 15000000).
  assert (0 <= left_after) by (apply Z.div_pos; lia).
  destruct (backoff_cases attempt) as [[H6 Hb]|[H6 Hb]].
  - assert (left_after <= left_before)
      by (subst left_after left_before; Z.to_euclidean_division_equations; lia).
    lia.
  - assert (left_after < left_before)
      by (subst left_after left_before; Z.to_euclidean_division_equations; lia).
    lia.
Qed.

Lemma wait_loop_spec : forall fuel attempt w,
  (polls_left max_wait_time attempt (clock w - start_time) < fuel)%nat ->
  exists w' r new,
    wait_loop remote reference_code token max_wait_time check_interval
              start_time fuel attempt w = Some (w', r) /\
    events w' = (events w ++ new)%list /\
    chained (clock w) new (clock w') /\
    Forall (scheduled start_time max_wait_time check_interval) new /\
    ends reference_code max_wait_time start_time w' r.
Proof.
  induction fuel as [|fuel IH]; intros attempt w Hfuel; [lia|].
  cbn [wait_loop].
  destruct (clock w - start_time <? microseconds max_wait_time) eqn:Hin.
  2:{ apply Z.ltb_ge in Hin. eexists _, _, []. split; [done|].
      rewrite app_nil_r. cbn. repeat split; try done.
      right; right. done. }
  apply Z.ltb_lt in Hin.
  set (w1 := request (remote (requests w)) w).
  assert (Hfetch : scheduled start_time max_wait_time check_interval
                     (Fetch (clock w) (clock w1))) by done.
  assert (Hclock : clock w <= clock w1) by (cbn; lia).
  destruct (poll_once remote reference_code token w) as [[d ->]|[e ->]].
  - eexists _, _, [_]. split; [done|]. cbn. repeat split; try done.
    + by constructor.
    + left. eauto.
  - fold w1. destruct (any_in not_ready_phrases (lower (str e))) eqn:Hnr.
    + set (w2 := sleep _ _).
      destruct (IH (attempt + 1) w2) as (w' & r & new & -> & Hev & Hch & Hsch & Hend).
      { assert (polls_left max_wait_time (attempt + 1) (clock w2 - start_time)
                < polls_left max_wait_time attempt (clock w - start_time))%nat; [|lia].
        apply polls_left_decreases; [done|]. cbn. lia. }
      exists w', r, (Fetch (clock w) (clock w1) :: Sleep (clock w1) (backoff check_interval attempt) :: new).
      split; [done|].
      split. { rewrite Hev. cbn. by rewrite <- !app_assoc. }
      split. { cbn. repeat split; try done. }
      split; [|done].
      constructor; [done|]. constructor; [|done]. cbn.
      destruct (backoff_cases attempt) as [[_ ->]|[_ [-> | ->]]]; auto.
    + eexists _, _, [_]. split; [done|]. cbn. repeat split; try done.
      * by constructor.
      * right; left. eauto.
Qed.

Hypothesis never_ready_remote : forall n, not_ready_reply (remote n) = true.

Lemma never_ready_times_out : forall fuel attempt w q,
  active_queries w !! reference_code = Some q ->
  (polls_left max_wait_time attempt (clock w - start_time) < fuel)%nat ->
  exists w',
    wait_loop remote reference_code token max_wait_time check_interval
              start_time fuel attempt w
    = Some (w', Raise (Timeout reference_code (clock w' - start_time))) /\
    microseconds max_wait_time <= clock w' - start_time /\
    active_queries w' !! reference_code
    = Some (failed_with (timeout_message reference_code (clock w' - start_time)) q).
Proof.
  induction fuel as [|fuel IH]; intros attempt w q Hq Hfuel; [lia|].
  cbn [wait_loop].
  destruct (clock w - start_time <? microseconds max_wait_time) eqn:Hin.
  2:{ apply Z.ltb_ge in Hin.
      exists (mark_failed reference_code
                (timeout_message reference_code (clock w - start_time)) w).
      split; [done|]. split; [done|].
      cbn. by rewrite lookup_alter_eq, Hq. }
  apply Z.ltb_lt in Hin.
  destruct (poll_not_ready remote reference_code token w) as (text & Hnr & ->);
    [done|].
  cbn [str exc_msg]. rewrite Hnr.
  set (w2 := sleep _ _).
  destruct (IH (attempt + 1) w2 (failed_with text q)) as (w' & -> & Hlate & Hq').
  { cbn. by rewrite lookup_alter_eq, Hq. }
  { assert (polls_left max_wait_time (attempt + 1) (clock w2 - start_time)
            < polls_left max_wait_time attempt (clock w - start_time))%nat; [|lia].
    apply polls_left_decreases; [done|]. cbn. lia. }
  exists w'. by rewrite Hq'.
Qed.

End Loop.

Lemma enough_fuel max_wait_time :
  (polls_left max_wait_time 0 0 < wait_fuel max_wait_time)%nat.
Proof.
  unfold polls_left, wait_fuel, microseconds.
  assert ((Z.max 0 (max_wait_time * 1000000 - 0) + 14999999) / 15000000
          <= Z.max 0 (max_wait_time / 15) + 1)
    by (Z.to_euclidean_division_equations; lia).
  lia.
Qed.

(** C3, amended: every call of the waiter ends; the requests and
    sleeps it makes follow one another without a gap, every request
    starts while the elapsed time is below [max_wait_time], and every
    sleep lasts a whole interval of the polling schedule, whatever is
    left of the budget; the call ends with the outcome of its last poll
    or, at a moment when the elapsed time has reached [max_wait_time],
    with the timeout. *)
Theorem budget_is_checked_between_polls remote reference_code token
    max_wait_time check_interval w :
  exists w' r new,
    wait_for_query_completion remote reference_code token max_wait_time
                              check_interval w = Some (w', r) /\
    events w' = (events w ++ new)%list /\
    chained (clock w) new (clock w') /\
    Forall (scheduled (clock w) max_wait_time check_interval) new /\
    ends reference_code max_wait_time (clock w) w' r.
Proof.
  apply wait_loop_spec. rewrite Z.sub_diag. apply enough_fuel.
Qed.

(** C3, as stated, fails: with a budget of 15 seconds and polls 10
    seconds apart, the second sleep starts at 10 seconds and lasts until
    20 seconds; the timeout is raised then, not at 15 seconds. *)
Lemma sleep_runs_past_budget :
  exists w',
    wait_for_query_completion never_ready "REF1" "token" 15 10 fresh
    = Some (w', Raise (Timeout "REF1" (microseconds 20))) /\
    clock w' - clock fresh = microseconds 20 /\
    In (Sleep (microseconds 10) 10) (events w') /\
    microseconds 15 < microseconds 10 + microseconds 10.
Proof.
  eexists. split; [vm_compute; reflexivity|]. cbn.
  split; [reflexivity|]. split; [|reflexivity]. auto 10.
Qed.

(** C4: against a remote that is never ready, a call of the waiter for
    a registered reference raises the timeout, not before
    [max_wait_time] has elapsed; afterwards the registry still holds the
    entry of the reference, with the same identifiers, status [FAILED]
    and the timeout message as its error. *)
Theorem timeout_marks_job_failed remote reference_code token
    max_wait_time check_interval w q :
  (forall n, not_ready_reply (remote n) = true) ->
  get_query_status reference_code w = Some q ->
  exists w' elapsed,
    wait_for_query_completion remote reference_code token max_wait_time
                              check_interval w
    = Some (w', Raise (Timeout reference_code elapsed)) /\
    elapsed = clock w' - clock w /\
    microseconds max_wait_time <= elapsed /\
    get_query_status reference_code w'
    = Some (failed_with (timeout_message reference_code elapsed) q).
Proof.
  intros Hremote Hq.
  destruct (never_ready_times_out remote reference_code token max_wait_time
              check_interval (clock w) Hremote (wait_fuel max_wait_time) 0 w q Hq)
    as (w' & Hrun & Hlate & Hq').
  { rewrite Z.sub_diag. apply enough_fuel. }
  exists w', (clock w' - clock w). done.
Qed.

(** The hypotheses of C4 can be met. *)
Lemma timeout_marks_job_failed_witness :
  (forall n, not_ready_reply (never_ready n) = true) /\
  get_query_status "REF1" fresh = Some job /\
  exists w' elapsed,
    wait_for_query_completion never_ready "REF1" "token" 15 10 fresh
    = Some (w', Raise (Timeout "REF1" elapsed)) /\
    elapsed = clock w' - clock fresh /\
    microseconds 15 <= elapsed /\
    get_query_status "REF1" w'
    = Some (failed_with (timeout_message "REF1" elapsed) job).
Proof.
  assert (H1 : forall n, not_ready_reply (never_ready n) = true)
    by (intros n; vm_compute; reflexivity).
  assert (H2 : get_query_status "REF1" fresh = Some job) by reflexivity.
  split; [exact H1|]. split; [exact H2|].
  exact (timeout_marks_job_failed never_ready "REF1" "token" 15 10 fresh job H1 H2).
Defined.

(** C9: a poll ([get_flex_query_data] with [max_retries = 1]) that
    meets a "still being generated" error for a registered reference
    raises that error and leaves the entry [FAILED] with the error text;
    the waiter goes on from that state, so that the entry reads [FAILED]
    during the sleep that follows, until a poll that succeeds sets it to
    [COMPLETED]. *)
Theorem not_ready_poll_marks_job_failed remote reference_code token w q :
  get_query_status reference_code w = Some q ->
  not_ready_reply (remote (requests w)) = true ->
  exists w1 text,
    get_flex_query_data remote reference_code token 1 w
    = (w1, Raise (mkExc Exception text)) /\
    any_in not_ready_phrases (lower text) = true /\
    get_query_status reference_code w1 = Some (failed_with text q) /\
    (forall max_wait_time check_interval start_time fuel attempt,
       clock w - start_time < microseconds max_wait_time ->
       wait_loop remote reference_code token max_wait_time check_interval
                 start_time (S fuel) attempt w
       = wait_loop remote reference_code token max_wait_time check_interval
                   start_time fuel (attempt + 1)
                   (sleep (backoff check_interval attempt) w1)) /\
    (forall wait_time,
       get_query_status reference_code (sleep wait_time w1)
       = Some (failed_with text q)) /\
    (forall wait_time w2 data,
       get_flex_query_data remote reference_code token 1 (sleep wait_time w1)
       = (w2, Ok data) ->
       get_query_status reference_code w2
       = Some (completed (clock w2) (failed_with text q))).
Proof.
  intros Hq Hnr.
  destruct (poll_not_ready remote reference_code token w Hnr) as (text & Hphrase & Hpoll).
  set (w1 := mark_failed reference_code text (request (remote (requests w)) w)) in *.
  assert (Hq1 : get_query_status reference_code w1 = Some (failed_with text q)).
  { unfold get_query_status in *. cbn. by rewrite lookup_alter_eq, Hq. }
  exists w1, text. split; [done|]. split; [done|]. split; [done|].
  split; [|split].
  - intros max_wait_time check_interval start_time fuel attempt Hin.
    cbn [wait_loop]. apply Z.ltb_lt in Hin. rewrite Hin, Hpoll.
    cbn [str exc_msg]. by rewrite Hphrase.
  - done.
  - intros wait_time w2 data Hok.
    destruct (poll_once remote reference_code token (sleep wait_time w1))
      as [[d Hd]|[e He]]; rewrite Hok in *; [|done].
    injection Hd as -> _. unfold get_query_status in *. cbn.
    rewrite lookup_alter_eq. cbn in Hq1. by rewrite Hq1.
Qed.

(** The hypotheses of C9 can be met. *)
Lemma not_ready_poll_marks_job_failed_witness :
  get_query_status "REF1" fresh = Some job /\
  not_ready_reply (ready_after 1 (requests fresh)) = true /\
  exists w1 text,
    get_flex_query_data (ready_after 1) "REF1" "token" 1 fresh
    = (w1, Raise (mkExc Exception text)) /\
    any_in not_ready_phrases (lower text) = true /\
    get_query_status "REF1" w1 = Some (failed_with text job) /\
    (forall max_wait_time check_interval start_time fuel attempt,
       clock fresh - start_time < microseconds max_wait_time ->
       wait_loop (ready_after 1) "REF1" "token" max_wait_time check_interval
                 start_time (S fuel) attempt fresh
       = wait_loop (ready_after 1) "REF1" "token" max_wait_time check_interval
                   start_time fuel (attempt + 1)
                   (sleep (backoff check_interval attempt) w1)) /\
    (forall wait_time,
       get_query_status "REF1" (sleep wait_time w1)
       = Some (failed_with text job)) /\
    (forall wait_time w2 data,
       get_flex_query_data (ready_after 1) "REF1" "token" 1 (sleep wait_time w1)
       = (w2, Ok data) ->
       get_query_status "REF1" w2
       = Some (completed (clock w2) (failed_with text job))).
Proof.
  assert (H1 : get_query_status "REF1" fresh = Some job) by reflexivity.
  assert (H2 : not_ready_reply (ready_after 1 (requests fresh)) = true)
    by (vm_compute; reflexivity).
  split; [exact H1|]. split; [exact H2|].
  exact (not_ready_poll_marks_job_failed (ready_after 1) "REF1" "token" fresh job H1 H2).
Defined.

(** A wait that succeeds at the second poll: the job is reported
    [FAILED] after the first poll and [COMPLETED], with the error text of
    the first poll still recorded, at the end. *)
Example wait_succeeds_at_second_poll :
  exists w1 w2 data text,
    get_flex_query_data (ready_after 1) "REF1" "token" 1 fresh
    = (w1, Raise (mkExc Exception text)) /\
    status <$> get_query_status "REF1" w1 = Some FAILED /\
    wait_for_query_completion (ready_after 1) "REF1" "token" 600 10 fresh
    = Some (w2, Ok (Some data)) /\
    get_query_status "REF1" w2
    = Some (mkResponse "Q1" (Some "REF1") COMPLETED 0 (Some 12000000) (Some text)) /\
    total_records data = 1.
Proof.
  do 4 eexists. split; [vm_compute; reflexivity|].
  split; [vm_compute; reflexivity|].
  split; [vm_compute; reflexivity|].
  split; vm_compute; reflexivity.
Qed.

End WaiterProps.

(* ===================================================================== *)
(** * Further properties *)
(* ===================================================================== *)

Module FetchFacts.
Import Py ET FlexQueryService FlexNotions FetchNotions WaiterProps.

(** ** [get_flex_query_data] *)

Section Fetch.
Variable remote : Remote.
Variables reference_code token : string.
Variable max_retries : Z.










Hypothesis never_ready_remote : forall n, not_ready_reply (remote n) = true.



End Fetch.






End FetchFacts.

Module WaitFacts.
Import Py ET FlexQueryService FlexNotions FetchNotions WaiterProps.




Section Wait.
Variable remote : Remote.
Variables reference_code token : string.
Variables max_wait_time check_interval start_time : Z.





End Wait.










End WaitFacts.

Module SubmitFacts.
Import Py ET FlexQueryService FlexNotions SubmitNotions.


(** Two submissions that the remote accepts under the same reference
    code leave one entry, that of the second. *)
Example resubmission_replaces_entry :
  let '(state1, first) :=
    execute_flex_query (accepted (Some "REF7")) "Q1" "token" (None, fresh) in
  let '((_, w2), second) :=
    execute_flex_query (accepted (Some "REF7")) "Q2" "token" state1 in
  get_query_status "REF7" state1.2 = Some first /\
  get_query_status "REF7" w2 = Some second /\
  first <> second /\
  size (active_queries w2) = 2%nat.
Proof. vm_compute. repeat split; congruence. Qed.

End SubmitFacts.

Module RecordFacts.
Import Py ET FlexQueryService FlexNotions RecordNotions ParserProps.









(** ** Dividends *)



(** ** The data set *)






End RecordFacts.

Module MetricsFacts.
Import Py ET FlexQueryService FlexNotions MetricsNotions.





(** *** The steps of the computation return when the numbers can be read *)







(** *** Text comparison *)

Lemma ltb_lt s t : String.ltb s t = true <-> String_as_OT.lt s t.
Proof.
  rewrite <- String_as_OT.cmp_lt. unfold String.ltb, String_as_OT.cmp.
  by destruct (String.compare s t).
Qed.




(** *** The stable sort *)






(** ** The metrics *)










(** ** From the parser to the metrics *)







End MetricsFacts.

Module MonitorFacts.
Import Py ConnectionHealthMonitor HealthNotions MonitorNotions.



(** ** A broker that stays disconnected *)




(** ** The broker service behind the monitor *)




(** ** The summary *)










(** Brokers whose checks all ended Unknown: the summary is Unhealthy
    and recommends nothing. *)
Example unknown_brokers_get_no_recommendation :
  let s := summary_of id [("ibkr", unknown_result "ibkr"); ("mt5", unknown_result "mt5")] in
  overall s = UNHEALTHY /\ recommendations s = [] /\
  healthy_brokers s = Some 0 /\ total_brokers s = Some 2.
Proof. cbv zeta. repeat split; vm_compute; reflexivity. Qed.



End MonitorFacts.
